(** * sotez: the [Key] class of [src/key.ts]

    A shallow embedding of the key lifecycle (construction, the asynchronous
    initializer, the accessors, [sign] and [verify]) together with the
    properties of the specification that concern it.

    The class talks to three npm packages (libsodium-wrappers, pbkdf2,
    secp256k1) and to two modules of the repository, [./utility] and
    [./constants].  All of them are reached through the [Provider] interface
    below; the class itself is translated line by line. *)

From Stdlib Require Import String Ascii Strings.Byte List Bool Arith NArith Lia.
Import ListNotations.
Local Open Scope list_scope.
Local Open Scope string_scope.

(** ** JavaScript values used by the class

    A string is the sequence of its code units; the credentials, tags and
    messages the class handles are ASCII texts. *)

(** A [Uint8Array] (or a [Buffer], its subclass). *)
Definition Uint8Array := list byte.

(** [String.prototype.substr(0, n)], [substring(a, b)] and [slice(a, b)]
    coincide for the non-negative, ordered indices the class uses: they
    clamp to the end of the string. *)
Definition js_slice (s : string) (a b : nat) : string := substring a (b - a) s.

(** Truthiness of an optional string argument: [undefined] and the empty
    string are falsy. *)
Definition truthy (o : option string) : bool :=
  match o with
  | Some s => negb (s =? "")
  | None => false
  end.

(** A value interpolated into a template literal. *)
Definition tmpl (o : option string) : string :=
  match o with
  | Some s => s
  | None => "undefined"
  end.

(** [Array.prototype.includes] on string and number literals. *)
Definition includes_str (l : list string) (s : string) : bool :=
  existsb (String.eqb s) l.

Definition includes_nat (l : list nat) (n : nat) : bool :=
  existsb (Nat.eqb n) l.

(** Truthiness of a boolean field that may still be [undefined]. *)
Definition js_true (o : option bool) : bool :=
  match o with
  | Some b => b
  | None => false
  end.

(** Strict equality of a possibly undefined string field with a string. *)
Definition opt_str_eqb (o : option string) (s : string) : bool :=
  match o with
  | Some c => c =? s
  | None => false
  end.

(** The two constants the initializer reads off an encoded key:
    [encrypted = key.substring(2, 3) === 'e'] and
    [publicOrSecret = encrypted ? key.slice(3, 5) : key.slice(2, 4)]. *)
Definition encrypted (key : string) : bool := js_slice key 2 3 =? "e".

Definition publicOrSecret (key : string) : string :=
  if encrypted key then js_slice key 3 5 else js_slice key 2 4.

(** The three checks the initializer makes on an encoded key before it
    decodes it. *)
Definition validCurve (key : string) : bool :=
  includes_str ["sp"; "p2"; "ed"] (js_slice key 0 2).

Definition validLength (key : string) : bool :=
  includes_nat [54; 55; 88; 98] (String.length key).

Definition validTag (key : string) : bool :=
  includes_str ["pk"; "sk"] (publicOrSecret key).

(** ** Exceptions *)

(** [Error m] is [new Error(m)] thrown by [key.ts] itself; [Foreign w] is
    an exception that escapes from a callee (a primitive of a package, a
    helper of [./utility], or the engine's [TypeError]). *)
Inductive exn : Type :=
| Error (message : string)
| Foreign (what : string).

(** The error kinds of the specification, as the messages of the source. *)
Definition MissingPassphraseFundraiser : exn :=
  Error "Fundraiser key provided without a passphrase.".
Definition InvalidCurvePrefix : exn := Error "Invalid prefix for a key encoding.".
Definition InvalidKeyLength : exn := Error "Invalid length for a key encoding".
Definition InvalidKeyTag : exn := Error "Invalid prefix for a key encoding.".
Definition MissingPassphraseEncrypted : exn :=
  Error "Encrypted key provided without a passphrase.".
Definition UnsupportedCurve : exn := Error "Curve P256 key is not yet supported.".
Definition InvalidKey : exn := Error "Invalid key".
Definition NoSecretKey : exn := Error "Secret key not known.".
Definition SignUnsupportedCurve : exn := Error "Provided curve not supported".
Definition MissingPublicKey : exn := Error "Cannot verify without a public key".
Definition CurveMismatch : exn := Error "Signature and public key curves mismatch.".
Definition InvalidSignature : exn := Error "Signature is invalid.".
Definition VerifyUnsupportedCurve (curve : option string) : exn :=
  Error ("Curve '" ++ tmpl curve ++ "' not supported").

(** An error raised by a check of the class itself, as opposed to one that
    escapes from a callee. *)
Definition raisedByKey (e : exn) : Prop :=
  match e with
  | Error _ => True
  | Foreign _ => False
  end.

(** ** Promises *)

Inductive promise : Type :=
| Pending
| Fulfilled
| Rejected (reason : exn).

(** ** The capability interface *)

(** The second argument of [pbkdf2Sync] is a string on the fundraiser path
    and a [Uint8Array] on the encrypted path. *)
Inductive binaryLike : Type :=
| Str (s : string)
| Buf (b : Uint8Array).

(** A callee either returns or throws; what it throws is described by a
    string and becomes a [Foreign] exception in the caller. *)
Definition outcome (A : Type) : Type := (string + A)%type.

Class Provider : Type := {
  (* libsodium-wrappers *)
  crypto_sign_seed_keypair : Uint8Array -> outcome (Uint8Array * Uint8Array);
  crypto_generichash : nat -> option Uint8Array -> outcome Uint8Array;
  crypto_sign_detached : Uint8Array -> option Uint8Array -> outcome Uint8Array;
  crypto_sign_verify_detached : string -> Uint8Array -> Uint8Array -> outcome bool;
  crypto_secretbox_open_easy : Uint8Array -> Uint8Array -> Uint8Array -> outcome Uint8Array;
  (* pbkdf2 *)
  pbkdf2Sync : string -> binaryLike -> N -> nat -> string -> outcome Uint8Array;
  (* secp256k1 *)
  publicKeyCreate : Uint8Array -> outcome Uint8Array;
  (* ./utility *)
  b58cencode : option Uint8Array -> option Uint8Array -> outcome string;
  b58cdecode : string -> option Uint8Array -> outcome Uint8Array;
  hex2buf : string -> outcome Uint8Array;
  buf2hex : Uint8Array -> string;
  mergebuf : Uint8Array -> Uint8Array -> Uint8Array;
  textEncode : string -> Uint8Array;
  textDecode : Uint8Array -> string;
  (* String.prototype.normalize *)
  normalize : string -> string -> string;
  (* ./constants *)
  prefix : string -> option Uint8Array
}.

(** ** The object and its state *)

Record Key : Type := mkKey {
  _publicKey : option Uint8Array;
  _secretKey : option Uint8Array;
  _isSecret : option bool;
  _isLedger : bool;
  _ledgerPath : string;
  _ledgerCurve : N;
  ready : promise;
  curve : option string
}.

Definition with_publicKey (v : option Uint8Array) (k : Key) : Key :=
  mkKey v (_secretKey k) (_isSecret k) (_isLedger k) (_ledgerPath k)
        (_ledgerCurve k) (ready k) (curve k).

Definition with_secretKey (v : option Uint8Array) (k : Key) : Key :=
  mkKey (_publicKey k) v (_isSecret k) (_isLedger k) (_ledgerPath k)
        (_ledgerCurve k) (ready k) (curve k).

Definition with_isSecret (v : bool) (k : Key) : Key :=
  mkKey (_publicKey k) (_secretKey k) (Some v) (_isLedger k) (_ledgerPath k)
        (_ledgerCurve k) (ready k) (curve k).

Definition with_curve (v : string) (k : Key) : Key :=
  mkKey (_publicKey k) (_secretKey k) (_isSecret k) (_isLedger k)
        (_ledgerPath k) (_ledgerCurve k) (ready k) (Some v).

Definition with_ready (v : promise) (k : Key) : Key :=
  mkKey (_publicKey k) (_secretKey k) (_isSecret k) (_isLedger k)
        (_ledgerPath k) (_ledgerCurve k) v (curve k).

(** ** Methods run in a state-and-exception monad over [this]

    A [throw] keeps the assignments made before it, as in JavaScript. *)
Definition M (A : Type) : Type := Key -> Key * (exn + A).

Definition ret {A} (a : A) : M A := fun k => (k, inr a).

Definition bind {A B} (m : M A) (f : A -> M B) : M B :=
  fun k =>
    match m k with
    | (k', inr a) => f a k'
    | (k', inl e) => (k', inl e)
    end.

Definition throw {A} (e : exn) : M A := fun k => (k, inl e).

Definition this : M Key := fun k => (k, inr k).

Definition assign (f : Key -> Key) : M unit := fun k => (f k, inr tt).

(** Calling into the provider. *)
Definition call {A} (r : outcome A) : M A :=
  match r with
  | inr a => ret a
  | inl w => throw (Foreign w)
  end.

(** What a caller sees of a call into the provider. *)
Definition seen {A} (r : outcome A) : exn + A :=
  match r with
  | inl w => inl (Foreign w)
  | inr a => inr a
  end.

(** [try { return c } catch (e) { throw h }]. *)
Definition try_catch {A} (c : M A) (h : exn) : M A :=
  fun k =>
    match c k with
    | (k', inr a) => (k', inr a)
    | (k', inl _) => (k', inl h)
    end.

Declare Scope js_scope.
Delimit Scope js_scope with js.
Notation "x <- c ;; k" := (bind c (fun x => k))
  (at level 61, c at next level, right associativity) : js_scope.
Notation "' pat <- c ;; k" := (bind c (fun x => match x with pat => k end))
  (at level 61, pat pattern, c at next level, right associativity) : js_scope.
Notation "c ;; k" := (bind c (fun _ => k))
  (at level 61, right associativity) : js_scope.
Local Open Scope js_scope.

(** The [resolve] function of the promise stored in [this.ready]. *)
Definition resolve : M unit :=
  assign (fun k =>
    match ready k with
    | Pending => with_ready Fulfilled k
    | _ => k
    end).

Section KeyClass.
Context {P : Provider}.

(** [publicKey = () => utility.b58cencode(this._publicKey, prefix[`${this.curve}pk`])] *)
Definition publicKey : M string :=
  k <- this ;;
  call (b58cencode (_publicKey k) (prefix (tmpl (curve k) ++ "pk"))).

(** [secretKey = () => { ... }]; a [Uint8Array] is truthy whatever its
    length, so the test is on [undefined] alone. *)
Definition secretKey : M string :=
  k <- this ;;
  match _secretKey k with
  | None => throw (Error "Secret key not known.")
  | Some sk =>
      key <- (if opt_str_eqb (curve k) "ed"
              then ' (_, privateKey) <- call (crypto_sign_seed_keypair (firstn 32 sk)) ;;
                   ret privateKey
              else ret sk) ;;
      call (b58cencode (Some key) (prefix (tmpl (curve k) ++ "sk")))
  end.

(** [prefixMap[this.curve]] *)
Definition prefixMap (c : option string) : option Uint8Array :=
  if opt_str_eqb c "ed" then prefix "tz1"
  else if opt_str_eqb c "sp" then prefix "tz2"
  else if opt_str_eqb c "p2" then prefix "tz3"
  else None.

Definition publicKeyHash : M string :=
  k <- this ;;
  let _prefix := prefixMap (curve k) in
  h <- call (crypto_generichash 20 (_publicKey k)) ;;
  call (b58cencode (Some h) _prefix).

(** [initialize = async (key, passphrase, email, ready) => { ... }];
    the value is what the body does once [await sodium.ready] resumes. *)
Definition initialize (key : string) (passphrase email : option string)
           (ready : M unit) : M unit :=
  if truthy email then
    if negb (truthy passphrase) then
      throw (Error "Fundraiser key provided without a passphrase.")
    else
      let salt :=
        normalize "NFKD"
          (textDecode (textEncode (tmpl email ++ tmpl passphrase))) in
      seed <- call (pbkdf2Sync key (Str ("mnemonic" ++ salt)) 2048%N 64 "sha512") ;;
      ' (publicKey, privateKey) <- call (crypto_sign_seed_keypair (firstn 32 seed)) ;;
      assign (with_publicKey (Some publicKey)) ;;
      assign (with_secretKey (Some privateKey)) ;;
      assign (with_curve "ed") ;;
      assign (with_isSecret true) ;;
      ready
  else
    assign (with_curve (js_slice key 0 2)) ;;
    k <- this ;;
    if negb (includes_str ["sp"; "p2"; "ed"] (tmpl (curve k))) then
      throw (Error "Invalid prefix for a key encoding.")
    else if negb (includes_nat [54; 55; 88; 98] (String.length key)) then
      throw (Error "Invalid length for a key encoding")
    else
      let encrypted := encrypted key in
      let publicOrSecret := publicOrSecret key in
      if negb (includes_str ["pk"; "sk"] publicOrSecret) then
        throw (Error "Invalid prefix for a key encoding.")
      else
        assign (with_isSecret (publicOrSecret =? "sk")) ;;
        k <- this ;;
        key <- (if js_true (_isSecret k)
                then call (b58cdecode key
                       (prefix (tmpl (curve k) ++ (if encrypted then "e" else "") ++ "sk")))
                else call (b58cdecode key (prefix (tmpl (curve k) ++ "pk")))) ;;
        key <- (if encrypted then
                  if negb (truthy passphrase) then
                    throw (Error "Encrypted key provided without a passphrase.")
                  else
                    let salt := firstn 8 key in
                    let encryptedSk := skipn 8 key in
                    encryptionKey <-
                      call (pbkdf2Sync (tmpl passphrase) (Buf salt) 32768%N 32 "sha512") ;;
                    call (crypto_secretbox_open_easy encryptedSk
                            (repeat x00 24) encryptionKey)
                else ret key) ;;
        (if negb (js_true (_isSecret k)) then
           assign (with_publicKey (Some key)) ;;
           assign (with_secretKey None)
         else
           assign (with_secretKey (Some key)) ;;
           if opt_str_eqb (curve k) "ed" then
             if Nat.eqb (length key) 64 then
               assign (with_publicKey (Some (skipn 32 key)))
             else
               ' (publicKey, privateKey) <- call (crypto_sign_seed_keypair key) ;;
               assign (with_publicKey (Some publicKey)) ;;
               assign (with_secretKey (Some privateKey))
           else if opt_str_eqb (curve k) "sp" then
             pk <- call (publicKeyCreate key) ;;
             assign (with_publicKey (Some pk))
           else if opt_str_eqb (curve k) "p2" then
             throw (Error "Curve P256 key is not yet supported.")
           else
             throw (Error "Invalid key")) ;;
        ready.

(** The object [sign] resolves to. *)
Record Signed : Type := mkSigned {
  sg_bytes : string;
  sg_sig : string;
  sg_edsig : string;
  sg_sbytes : string
}.

(** [sign = async (bytes, watermark) => { ... }]; a [throw] is the rejection
    of the promise it returns. *)
Definition sign (bytes : string) (watermark : option Uint8Array) : M Signed :=
  bb <- call (hex2buf bytes) ;;
  let bb := match watermark with
            | Some w => mergebuf w bb
            | None => bb
            end in
  k <- this ;;
  if opt_str_eqb (curve k) "ed" then
    digest <- call (crypto_generichash 32 (Some bb)) ;;
    sig <- call (crypto_sign_detached digest (_secretKey k)) ;;
    edsig <- call (b58cencode (Some sig) (prefix "edsig")) ;;
    let sbytes := bytes ++ buf2hex sig in
    gsig <- call (b58cencode (Some sig) (prefix "sig")) ;;
    ret (mkSigned bytes gsig edsig sbytes)
  else
    throw (Error "Provided curve not supported").

(** [verify = (bytes, signature) => { ... }]; [hex2buf] is called outside
    the [try] block. *)
Definition verify (bytes : string) (signature : string) : M bool :=
  k <- this ;;
  match _publicKey k with
  | None => throw (Error "Cannot verify without a public key")
  | Some pk =>
      (if negb (js_slice signature 0 3 =? "sig") then
         if negb (opt_str_eqb (curve k) (js_slice signature 0 2)) then
           throw (Error "Signature and public key curves mismatch.")
         else ret tt
       else ret tt) ;;
      if opt_str_eqb (curve k) "ed" then
        digest <- call (hex2buf bytes) ;;
        try_catch (call (crypto_sign_verify_detached signature digest pk))
                  (Error "Signature is invalid.")
      else
        throw (Error ("Curve '" ++ tmpl (curve k) ++ "' not supported"))
  end.

(** The object as the constructor leaves it before the initializer has
    run: the three ledger fields are set, [ready] is a pending promise
    and every other field is still [undefined]. *)
Definition unborn : Key :=
  mkKey None None None false "44'/1729'/0'/0'" 0 Pending None.

(** [new Key(key, passphrase, email)] once the initializer has run to its
    end.  [this_] is the object; [initializing] is the promise returned by
    [this.initialize(...)], which the executor of [ready] drops.  The
    constructor itself cannot throw: its only call is to the async
    initializer, whose exceptions end up in [initializing].  The initializer
    is the only holder of [resolve], so a [ready] that is still pending
    here stays pending. *)
Record Construction : Type := mkConstruction {
  this_ : Key;
  initializing : promise
}.

Definition new_Key (key : string) (passphrase email : option string)
  : Construction :=
  match initialize key passphrase email resolve unborn with
  | (k, inr _) => mkConstruction k Fulfilled
  | (k, inl e) => mkConstruction k (Rejected e)
  end.

End KeyClass.

(** ** The ledger fields

    [get isLedger() { return this._isLedger; }],
    [set isLedger(value) { this._isLedger = value; }], and the same for
    [ledgerPath] and [ledgerCurve]. *)
Definition with_isLedger (v : bool) (k : Key) : Key :=
  mkKey (_publicKey k) (_secretKey k) (_isSecret k) v (_ledgerPath k)
        (_ledgerCurve k) (ready k) (curve k).

Definition with_ledgerPath (v : string) (k : Key) : Key :=
  mkKey (_publicKey k) (_secretKey k) (_isSecret k) (_isLedger k) v
        (_ledgerCurve k) (ready k) (curve k).

Definition with_ledgerCurve (v : N) (k : Key) : Key :=
  mkKey (_publicKey k) (_secretKey k) (_isSecret k) (_isLedger k)
        (_ledgerPath k) v (ready k) (curve k).

Definition get_isLedger : M bool := k <- this ;; ret (_isLedger k).
Definition set_isLedger (value : bool) : M unit := assign (with_isLedger value).

Definition get_ledgerPath : M string := k <- this ;; ret (_ledgerPath k).
Definition set_ledgerPath (value : string) : M unit := assign (with_ledgerPath value).

Definition get_ledgerCurve : M N := k <- this ;; ret (_ledgerCurve k).
Definition set_ledgerCurve (value : N) : M unit := assign (with_ledgerCurve value).

(** Key material, readiness and curve: everything but the ledger fields. *)
Definition same_material (a b : Key) : Prop :=
  _publicKey a = _publicKey b /\ _secretKey a = _secretKey b /\
  _isSecret a = _isSecret b /\ ready a = ready b /\ curve a = curve b.

Section Stages.
Context {P : Provider}.

(** The decoded bytes [raw] of the credential [key] come out of lines
    147-157 of the initializer as [plain]: unchanged for a key that is not
    marked as encrypted, opened with the stretched passphrase otherwise. *)
Definition opens_to (key : string) (passphrase : option string)
           (raw plain : Uint8Array) : Prop :=
  if encrypted key then
    truthy passphrase = true /\
    exists encryptionKey,
      pbkdf2Sync (tmpl passphrase) (Buf (firstn 8 raw)) 32768%N 32 "sha512"
      = inr encryptionKey /\
      crypto_secretbox_open_easy (skipn 8 raw) (repeat x00 24) encryptionKey
      = inr plain
  else plain = raw.

(** The constant [salt] of line 110, for an email and a passphrase that are
    given:
    [utility.textDecode(utility.textEncode(`${email}${passphrase}`)).normalize('NFKD')]. *)
Definition fundraiserSalt (email passphrase : string) : string :=
  normalize "NFKD" (textDecode (textEncode (email ++ passphrase))).

End Stages.

(** ** A reference provider

    The theorems below hold for every [Provider].  To run the class on
    concrete credentials, one instance is given here.

    - the codec of [./utility] and the table of [./constants] are not among
      the sources; they are modelled from the specification (base58 text
      with a prefix tag and a trailing checksum, the checksum being the
      first four bytes of a double SHA-256 as in Base58Check);
    - the primitives of the three packages are stand-ins with the
      interface, the length checks and the functional laws of the real
      ones (a key pair is a function of its seed, a detached signature made
      with a secret key verifies under its public key), built from SHA-256
      instead of the real curves and ciphers. *)

Module SHA256.
Local Open Scope N_scope.

Definition w32 (x : N) : N := x mod 4294967296.
Definition add32 (a b : N) : N := w32 (a + b).
Definition rotr (n x : N) : N :=
  N.lor (N.shiftr x n) (w32 (N.shiftl x (32 - n))).
Definition not32 (x : N) : N := N.lxor x 0xffffffff.

Definition Ch (x y z : N) : N := N.lxor (N.land x y) (N.land (not32 x) z).
Definition Maj (x y z : N) : N :=
  N.lxor (N.lxor (N.land x y) (N.land x z)) (N.land y z).
Definition Sigma0 (x : N) : N := N.lxor (N.lxor (rotr 2 x) (rotr 13 x)) (rotr 22 x).
Definition Sigma1 (x : N) : N := N.lxor (N.lxor (rotr 6 x) (rotr 11 x)) (rotr 25 x).
Definition sigma0 (x : N) : N := N.lxor (N.lxor (rotr 7 x) (rotr 18 x)) (N.shiftr x 3).
Definition sigma1 (x : N) : N := N.lxor (N.lxor (rotr 17 x) (rotr 19 x)) (N.shiftr x 10).

(** The round constants are the first 32 bits of the fractional parts of
    the cube roots of the first 64 primes; the initial registers are those
    of the square roots of the first 8. *)
Definition is_prime (n : nat) : bool :=
  forallb (fun d => negb (n mod d =? 0)%nat) (seq 2 (n - 2)).

Definition primes : list N :=
  map N.of_nat (filter is_prime (seq 2 310)).

Fixpoint cube_root (bits : nat) (x r : N) : N :=
  match bits with
  | O => r
  | S b =>
      let c := r + 2 ^ N.of_nat b in
      cube_root b x (if c * c * c <=? x then c else r)
  end.

Definition K : list N :=
  map (fun p => w32 (cube_root 40 (p * 2 ^ 96) 0)) primes.

Definition H : list N :=
  map (fun p => w32 (N.sqrt (p * 2 ^ 64))) (firstn 8 primes).

Record regs : Type := mkRegs { ra : N; rb : N; rc : N; rd : N;
                               re : N; rf : N; rg : N; rh : N }.

Definition H0 : regs :=
  mkRegs (nth 0 H 0) (nth 1 H 0) (nth 2 H 0) (nth 3 H 0)
         (nth 4 H 0) (nth 5 H 0) (nth 6 H 0) (nth 7 H 0).

(** Big-endian packing of bytes into a number, and back. *)
Definition be_number (l : list N) : N :=
  fold_left (fun acc b => acc * 256 + b) l 0.

Fixpoint be_bytes (width : nat) (x : N) : list N :=
  match width with
  | O => []
  | S w => (be_bytes w (x / 256) ++ [x mod 256])%list
  end.

Definition pad (msg : list N) : list N :=
  let len := length msg in
  let zeros := ((119 - len mod 64) mod 64)%nat in
  (msg ++ [0x80] ++ repeat 0 zeros ++ be_bytes 8 (8 * N.of_nat len))%list.

Fixpoint words (n : nat) (block : list N) : list N :=
  match n with
  | O => []
  | S n' => be_number (firstn 4 block) :: words n' (skipn 4 block)
  end.

Fixpoint extend (n : nat) (w : list N) : list N :=
  match n with
  | O => w
  | S n' =>
      let i := length w in
      let x := add32 (add32 (sigma1 (nth (i - 2) w 0)) (nth (i - 7) w 0))
                     (add32 (sigma0 (nth (i - 15) w 0)) (nth (i - 16) w 0)) in
      extend n' (w ++ [x])%list
  end.

Definition round (s : regs) (kw : N * N) : regs :=
  let t1 := add32 (add32 (add32 (rh s) (Sigma1 (re s)))
                         (add32 (Ch (re s) (rf s) (rg s)) (fst kw))) (snd kw) in
  let t2 := add32 (Sigma0 (ra s)) (Maj (ra s) (rb s) (rc s)) in
  mkRegs (add32 t1 t2) (ra s) (rb s) (rc s) (add32 (rd s) t1) (re s) (rf s) (rg s).

Definition compress (h : regs) (block : list N) : regs :=
  let w := extend 48 (words 16 block) in
  let s := fold_left round (combine K w) h in
  mkRegs (add32 (ra h) (ra s)) (add32 (rb h) (rb s)) (add32 (rc h) (rc s))
         (add32 (rd h) (rd s)) (add32 (re h) (re s)) (add32 (rf h) (rf s))
         (add32 (rg h) (rg s)) (add32 (rh h) (rh s)).

Fixpoint blocks (n : nat) (data : list N) (h : regs) : regs :=
  match n with
  | O => h
  | S n' => blocks n' (skipn 64 data) (compress h (firstn 64 data))
  end.

Definition digest (msg : list N) : list N :=
  let data := pad msg in
  let h := blocks (length data / 64) data H0 in
  flat_map (be_bytes 4) [ra h; rb h; rc h; rd h; re h; rf h; rg h; rh h].
End SHA256.

Definition byte_of_N (n : N) : byte :=
  match Byte.of_N (n mod 256) with
  | Some b => b
  | None => x00
  end.

Definition sha256 (b : Uint8Array) : Uint8Array :=
  map byte_of_N (SHA256.digest (map Byte.to_N b)).

Module Base58.
Local Open Scope N_scope.

Definition alphabet : list ascii :=
  list_ascii_of_string
    "123456789ABCDEFGHJKLMNPQRSTUVWXYZabcdefghijkmnopqrstuvwxyz".

Fixpoint index_of (c : ascii) (l : list ascii) (i : N) : option N :=
  match l with
  | [] => None
  | x :: r => if Ascii.eqb x c then Some i else index_of c r (i + 1)
  end.

Fixpoint leading_zeros (l : list N) : nat :=
  match l with
  | 0 :: r => S (leading_zeros r)
  | _ => O
  end.

(** The digits of [x] in base [base], most significant first. *)
Fixpoint digits (fuel : nat) (base x : N) (acc : list N) : list N :=
  match fuel with
  | O => acc
  | S f => if x =? 0 then acc else digits f base (x / base) (x mod base :: acc)
  end.

Definition encode (l : list N) : string :=
  let z := leading_zeros l in
  let ds := digits (2 * length l) 58 (SHA256.be_number l) [] in
  string_of_list_ascii
    (repeat "1"%char z ++ map (fun d => nth (N.to_nat d) alphabet "1"%char) ds)%list.

Fixpoint leading_ones (l : list ascii) : nat :=
  match l with
  | c :: r => if Ascii.eqb c "1" then S (leading_ones r) else O
  | [] => O
  end.

Fixpoint number (l : list ascii) (acc : N) : option N :=
  match l with
  | [] => Some acc
  | c :: r =>
      match index_of c alphabet 0 with
      | Some d => number r (acc * 58 + d)
      | None => None
      end
  end.

Definition decode (s : string) : option (list N) :=
  let cs := list_ascii_of_string s in
  match number cs 0 with
  | Some x => Some (repeat 0 (leading_ones cs) ++ digits (length cs) 256 x [])%list
  | None => None
  end.
End Base58.

Module Reference.

Definition checksum (data : Uint8Array) : Uint8Array :=
  firstn 4 (sha256 (sha256 data)).

Definition bytes_eqb (a b : Uint8Array) : bool :=
  if list_eq_dec Byte.byte_eq_dec a b then true else false.

(** Modelled from the spec: [utility.b58cencode] ([src/utility.ts] is not
    among the sources) prepends the prefix, appends a checksum and
    base58-encodes.  An [undefined] argument is not a byte string; reading
    its length is a [TypeError]. *)
Definition b58cencode (payload pfx : option Uint8Array) : outcome string :=
  match payload, pfx with
  | Some b, Some p =>
      let data := (p ++ b)%list in
      inr (Base58.encode (map Byte.to_N (data ++ checksum data)%list))
  | _, _ => inl "TypeError: Cannot read property 'length' of undefined"
  end.

(** Modelled from the spec: [utility.b58cdecode] validates the checksum
    and the prefix and fails on a mismatch; it returns the payload. *)
Definition b58cdecode (enc : string) (pfx : option Uint8Array) : outcome Uint8Array :=
  match pfx with
  | None => inl "TypeError: Cannot read property 'length' of undefined"
  | Some p =>
      match Base58.decode enc with
      | None => inl "Non-base58 character"
      | Some raw =>
          let raw := map byte_of_N raw in
          let n := (length raw - 4)%nat in
          let data := firstn n raw in
          if negb (4 <=? length raw)%nat then inl "Invalid checksum"
          else if negb (bytes_eqb (skipn n raw) (checksum data)) then inl "Invalid checksum"
          else if negb (bytes_eqb (firstn (length p) data) p) then inl "Invalid prefix"
          else inr (skipn (length p) data)
      end
  end.

Definition hex_digit (c : ascii) : option N :=
  let n := N_of_ascii c in
  if ((48 <=? n) && (n <=? 57))%N then Some (n - 48)%N
  else if ((97 <=? n) && (n <=? 102))%N then Some (n - 87)%N
  else if ((65 <=? n) && (n <=? 70))%N then Some (n - 55)%N
  else None.

(** Modelled from the spec: [utility.hex2buf] is total; it reads the
    pairs of hexadecimal digits of its argument from left to right. *)
Fixpoint hex2buf (s : string) : Uint8Array :=
  match s with
  | String a ((String b r) as t) =>
      match hex_digit a, hex_digit b with
      | Some x, Some y => byte_of_N (16 * x + y) :: hex2buf r
      | _, _ => hex2buf t
      end
  | _ => []
  end.

Definition hex_char (n : N) : ascii :=
  nth (N.to_nat n) (list_ascii_of_string "0123456789abcdef") "0"%char.

(** Modelled from the spec: [utility.buf2hex], two lower-case digits per
    byte. *)
Definition buf2hex (b : Uint8Array) : string :=
  string_of_list_ascii
    (flat_map (fun x => [hex_char (Byte.to_N x / 16); hex_char (Byte.to_N x mod 16)]) b).

(** Modelled from the spec: [utility.mergebuf] is concatenation. *)
Definition mergebuf (a b : Uint8Array) : Uint8Array := (a ++ b)%list.

(** Modelled from the spec: the prefix table of [./constants], with the
    tags the specification lists and the byte values of the Tezos
    network. *)
Definition prefix (tag : string) : option Uint8Array :=
  let t := map byte_of_N in
  if tag =? "tz1" then Some (t [6; 161; 159]%N)
  else if tag =? "tz2" then Some (t [6; 161; 161]%N)
  else if tag =? "tz3" then Some (t [6; 161; 164]%N)
  else if tag =? "edpk" then Some (t [13; 15; 37; 217]%N)
  else if tag =? "sppk" then Some (t [3; 254; 226; 86]%N)
  else if tag =? "p2pk" then Some (t [3; 178; 139; 127]%N)
  else if tag =? "edsk" then Some (t [43; 246; 78; 7]%N)
  else if tag =? "spsk" then Some (t [17; 162; 224; 201]%N)
  else if tag =? "p2sk" then Some (t [16; 81; 238; 189]%N)
  else if tag =? "edesk" then Some (t [7; 90; 60; 179; 41]%N)
  else if tag =? "spesk" then Some (t [9; 237; 204; 174; 163]%N)
  else if tag =? "p2esk" then Some (t [9; 48; 57; 115; 171]%N)
  else if tag =? "sig" then Some (t [4; 130; 43]%N)
  else if tag =? "edsig" then Some (t [9; 245; 205; 134; 18]%N)
  else if tag =? "spsig" then Some (t [13; 115; 101; 19; 63]%N)
  else if tag =? "p2sig" then Some (t [54; 240; 44; 52]%N)
  else None.

(** *** Stand-ins for the primitives *)

Definition stretch (n : nat) (data : Uint8Array) : Uint8Array :=
  firstn n (flat_map (fun i => sha256 (byte_of_N i :: data)) [0; 1; 2; 3]%N).

Definition crypto_generichash (n : nat) (m : option Uint8Array) : outcome Uint8Array :=
  match m with
  | Some b => inr (stretch n b)
  | None => inl "TypeError: unsupported input type for message"
  end.

Definition public_of_seed (seed : Uint8Array) : Uint8Array :=
  sha256 (x01 :: seed).

Definition crypto_sign_seed_keypair (seed : Uint8Array)
  : outcome (Uint8Array * Uint8Array) :=
  if negb (length seed =? 32)%nat then inl "TypeError: invalid seed length"
  else inr (public_of_seed seed, (seed ++ public_of_seed seed)%list).

Definition tag_of (pk m : Uint8Array) : Uint8Array :=
  (sha256 (x02 :: pk ++ m) ++ sha256 (x03 :: pk ++ m))%list.

Definition crypto_sign_detached (m : Uint8Array) (sk : option Uint8Array)
  : outcome Uint8Array :=
  match sk with
  | None => inl "TypeError: unsupported input type for privateKey"
  | Some sk =>
      if negb (length sk =? 64)%nat then inl "TypeError: invalid privateKey length"
      else inr (tag_of (skipn 32 sk) m)
  end.

(** A string argument is read as its bytes. *)
Definition crypto_sign_verify_detached (signature : string) (m pk : Uint8Array)
  : outcome bool :=
  let sg := list_byte_of_string signature in
  if negb (length sg =? 64)%nat then inl "TypeError: invalid signature length"
  else if negb (length pk =? 32)%nat then inl "TypeError: invalid publicKey length"
  else inr (bytes_eqb sg (tag_of pk m)).

Definition xor_bytes (a b : Uint8Array) : Uint8Array :=
  map (fun p => byte_of_N (N.lxor (Byte.to_N (fst p)) (Byte.to_N (snd p)))) (combine a b).

Definition crypto_secretbox_open_easy (c nonce key : Uint8Array) : outcome Uint8Array :=
  if negb (length key =? 32)%nat then inl "TypeError: invalid key length"
  else if negb (length nonce =? 24)%nat then inl "TypeError: invalid nonce length"
  else if negb (16 <=? length c)%nat then inl "TypeError: ciphertext is too short"
  else
    let mac := firstn 16 c in
    let body := skipn 16 c in
    if negb (bytes_eqb mac (firstn 16 (sha256 (key ++ nonce ++ body)%list)))
    then inl "wrong secret key for the given ciphertext"
    else inr (xor_bytes body (stretch (length body) (key ++ nonce)%list)).

Definition binary (x : binaryLike) : Uint8Array :=
  match x with
  | Str s => list_byte_of_string s
  | Buf b => b
  end.

Definition pbkdf2Sync (password : string) (salt : binaryLike) (iterations : N)
           (keylen : nat) (digest : string) : outcome Uint8Array :=
  inr (stretch keylen (list_byte_of_string password ++ x00 :: binary salt)%list).

Definition publicKeyCreate (sk : Uint8Array) : outcome Uint8Array :=
  if negb (length sk =? 32)%nat then inl "private key length is invalid"
  else inr (x02 :: sha256 (x04 :: sk)).

Definition provider : Provider :=
  Build_Provider
    crypto_sign_seed_keypair crypto_generichash crypto_sign_detached
    crypto_sign_verify_detached crypto_secretbox_open_easy
    pbkdf2Sync publicKeyCreate
    b58cencode b58cdecode (fun s => inr (hex2buf s)) buf2hex mergebuf
    list_byte_of_string string_of_list_byte
    (fun _ s => s)
    prefix.



Definition fundraiser_only : Provider :=
  Build_Provider
    crypto_sign_seed_keypair crypto_generichash
    (fun _ _ => inl "unavailable")
    (fun _ _ _ => inl "unavailable")
    (fun _ _ _ => inl "unavailable")
    pbkdf2Sync
    (fun _ => inl "unavailable")
    b58cencode
    (fun _ _ => inl "unavailable")
    (fun _ => inl "unavailable")
    (fun _ => "")
    (fun _ b => b)
    list_byte_of_string string_of_list_byte
    (fun _ s => s)
    (fun tag => if tag =? "tz1" then prefix "tz1" else None).
End Reference.

(** ** The prefix looked up on the encoded-key path *)

(** The property name of the prefix table that lines 141-145 of the source
    compute: [`${curve}${encrypted ? 'e' : ''}sk`] for a secret key and
    [`${curve}pk`] otherwise. *)
Definition decodePrefixTag (key : string) : string :=
  if publicOrSecret key =? "sk"
  then js_slice key 0 2 ++ (if encrypted key then "e" else "") ++ "sk"
  else js_slice key 0 2 ++ "pk".



(** ** Credentials used in the examples

    [edsk_vector] is the test vector of the class documentation; the others
    are Base58Check encodings of the bytes 1..32 (preceded by 2 for the
    33-byte public key) under the prefixes of their tags.  [edepk_text] is
    a Base58Check text of 54 characters that begins with [edepk]. *)
Module Samples.
Definition edsk_vector : string :=
  "edskRv6ZnkLQMVustbYHFPNsABu1Js6pEEWyMUFJQTqEZjVCU2WHh8ckcc7YA4uBzPiJjZCsv3pC1NDdV99AnyLzPjSip4uC3y".
Definition edpk_key : string :=
  "edpktefgU5pvCgmCHMBXebvUGbbXAkSXJgMMoCGDx3rXBQ2MfGexGx".
Definition p2pk_key : string :=
  "p2pk64ac8YoQtSTvDxgE8Jz1nJc62EVSjM9X2L2GGJL3WZDzKS7mc7h".
Definition p2sk_key : string :=
  "p2sk2MEYt93H37wHdnpkPYQ2hipLmSX4bnhocvAjxnnvnzvH7W76T2".
Definition mnemonic : string :=
  "frame phone sleep scale vast small final expire dial radar wisdom erode omit quick trade".

(** The secp256k1 secret key made of the bytes 1..32, and the ed seed of
    the same bytes sealed for the reference provider under the passphrase
    [secret] with the salt 101..108. *)
Definition spsk_key : string :=
  "spsk1S1Ree7gaspotLbU2WkEvqCHZ1R6Gh5raPeJhJzH5KAxvEEuSB".
Definition edesk_key : string :=
  "edesk1ZyFZsfJLngpUpvEps1w4ruaQvCn987cQgJYHNx8TcFep4EFUDitYhBFMtNvwZNwZoahDkU3YymrmqZNDU6".

(** The bytes 1..32. *)
Definition bytes_1_32 : Uint8Array :=
  map (fun n => byte_of_N (N.of_nat n)) (seq 1 32).


(** A text of 64 characters that begins with [sig]. *)
Definition sig_text_64 : string :=
  "sig" ++ string_of_list_ascii (repeat "7"%char 61).
End Samples.

(** The Keys the reference provider constructs from some of them. *)
Module Built.
Definition from_edpk : Key :=
  this_ (@new_Key Reference.provider Samples.edpk_key None None).
Definition from_p2pk : Key :=
  this_ (@new_Key Reference.provider Samples.p2pk_key None None).
Definition from_p2sk : Key :=
  this_ (@new_Key Reference.provider Samples.p2sk_key None None).
Definition from_spsk : Key :=
  this_ (@new_Key Reference.provider Samples.spsk_key None None).
Definition from_edsk : Key :=
  this_ (@new_Key Reference.provider Samples.edsk_vector None None).
Definition from_edesk : Key :=
  this_ (@new_Key Reference.provider Samples.edesk_key (Some "secret") None).
End Built.

(** ** What the round trip relies on

    Three facts about the callees of [sign] and [verify]: the verification
    primitive of libsodium throws on a signature argument that is not 64
    bytes long (a string is read as its bytes); a base58check text has at
    least as many characters as the payload and the four checksum bytes it
    encodes; a detached signature is 64 bytes long. *)
Class Lawful (P : Provider) : Prop := {
  verify_checks_length :
    forall s m pk, String.length s <> 64 ->
                   exists w, crypto_sign_verify_detached s m pk = inl w;
  text_is_longer :
    forall b p s, b58cencode (Some b) p = inr s ->
                  length b + 4 <= String.length s;
  signature_length :
    forall m sk sg, crypto_sign_detached m sk = inr sg -> length sg = 64
}.

(** * Properties *)

(** ** The reference provider *)

Lemma be_bytes_length w x : length (SHA256.be_bytes w x) = w.
Proof.
  revert x. induction w as [| w IH]; intros x; cbn [SHA256.be_bytes].
  - reflexivity.
  - rewrite length_app, IH. cbn. lia.
Qed.

Lemma sha256_length b : length (sha256 b) = 32.
Proof.
  unfold sha256, SHA256.digest. rewrite length_map.
  cbn [flat_map]. rewrite !length_app, !be_bytes_length. reflexivity.
Qed.

Lemma string_of_list_ascii_length l :
  String.length (string_of_list_ascii l) = length l.
Proof.
  induction l as [| c l IH]; cbn; [reflexivity | now rewrite IH].
Qed.

Lemma list_byte_of_string_length s :
  length (list_byte_of_string s) = String.length s.
Proof.
  induction s as [| c s IH]; cbn; [reflexivity | now rewrite <- IH].
Qed.

Lemma digits_keep_acc fuel base x acc :
  length acc <= length (Base58.digits fuel base x acc).
Proof.
  revert x acc. induction fuel as [| f IH]; intros x acc; cbn [Base58.digits].
  - lia.
  - destruct (x =? 0)%N; [lia |].
    specialize (IH (x / base)%N (x mod base :: acc)%N). cbn [length] in IH. lia.
Qed.

Lemma digits_count fuel m x acc :
  (58 ^ N.of_nat m <= x)%N -> m < fuel ->
  m + 1 + length acc <= length (Base58.digits fuel 58 x acc).
Proof.
  revert m x acc. induction fuel as [| f IH]; intros m x acc Hx Hm; [lia |].
  cbn [Base58.digits].
  assert (Hpos : (58 ^ N.of_nat m <> 0)%N) by (apply N.pow_nonzero; lia).
  destruct (N.eqb_spec x 0) as [-> | _]; [lia |].
  destruct m as [| m].
  - pose proof (digits_keep_acc f 58 (x / 58) (x mod 58 :: acc)%N) as H.
    cbn [length] in H. lia.
  - assert (Hq : (58 ^ N.of_nat m <= x / 58)%N).
    { apply N.div_le_lower_bound; [lia |].
      rewrite Nnat.Nat2N.inj_succ, N.pow_succ_r' in Hx. exact Hx. }
    specialize (IH m (x / 58)%N (x mod 58 :: acc)%N Hq ltac:(lia)).
    cbn [length] in IH. lia.
Qed.

Lemma be_number_from acc l :
  (acc * 256 ^ N.of_nat (length l)
   <= fold_left (fun a b => a * 256 + b) l acc)%N.
Proof.
  revert acc. induction l as [| b l IH]; intros acc; cbn [fold_left length].
  - cbn. lia.
  - specialize (IH (acc * 256 + b)%N).
    rewrite Nnat.Nat2N.inj_succ, N.pow_succ_r'. nia.
Qed.

Lemma leading_zeros_le l : Base58.leading_zeros l <= length l.
Proof.
  induction l as [| b l IH]; cbn [Base58.leading_zeros length]; [lia |].
  destruct b; cbn [length]; lia.
Qed.

Lemma be_number_lower l :
  Base58.leading_zeros l < length l ->
  (256 ^ N.of_nat (length l - Base58.leading_zeros l - 1) <= SHA256.be_number l)%N.
Proof.
  induction l as [| b l IH]; cbn [Base58.leading_zeros length]; [lia |].
  destruct b as [| p].
  - intros H. change (SHA256.be_number (0%N :: l)) with (SHA256.be_number l).
    replace (S (length l) - S (Base58.leading_zeros l) - 1)
      with (length l - Base58.leading_zeros l - 1) by lia.
    apply IH. lia.
  - intros _. replace (S (length l) - 0 - 1) with (length l) by lia.
    unfold SHA256.be_number. cbn [fold_left].
    pose proof (be_number_from (0 * 256 + N.pos p) l) as H.
    assert (Hp : (256 ^ N.of_nat (length l) <> 0)%N) by (apply N.pow_nonzero; lia).
    nia.
Qed.

(** A base58 text has at least as many characters as the bytes it encodes. *)
Lemma encode_length l : length l <= String.length (Base58.encode l).
Proof.
  unfold Base58.encode. rewrite string_of_list_ascii_length, length_app,
    repeat_length, length_map.
  pose proof (leading_zeros_le l) as Hz.
  destruct (Nat.eq_dec (Base58.leading_zeros l) (length l)) as [E | E]; [lia |].
  pose proof (be_number_lower l ltac:(lia)) as Hb.
  set (m := length l - Base58.leading_zeros l - 1) in *.
  assert (Hm : (58 ^ N.of_nat m <= 256 ^ N.of_nat m)%N)
    by (apply N.pow_le_mono_l; lia).
  pose proof (digits_count (2 * length l) m (SHA256.be_number l) []
                ltac:(lia) ltac:(lia)) as Hd.
  cbn [length] in Hd. lia.
Qed.

Lemma reference_is_lawful : Lawful Reference.provider.
Proof.
  split.
  - intros s m pk Hs.
    change (@crypto_sign_verify_detached Reference.provider)
      with Reference.crypto_sign_verify_detached.
    unfold Reference.crypto_sign_verify_detached.
    rewrite list_byte_of_string_length.
    destruct (Nat.eqb_spec (String.length s) 64) as [E | _]; [contradiction |].
    eexists. reflexivity.
  - intros b p s.
    change (@b58cencode Reference.provider) with Reference.b58cencode.
    unfold Reference.b58cencode.
    destruct p as [p |]; [| discriminate].
    intros H. injection H as <-.
    pose proof (encode_length
      (map Byte.to_N ((p ++ b) ++ Reference.checksum (p ++ b))%list)) as Hl.
    rewrite length_map, !length_app in Hl.
    assert (Hc : length (Reference.checksum (p ++ b)%list) = 4).
    { unfold Reference.checksum. apply firstn_length_le. rewrite sha256_length. lia. }
    rewrite Hc in Hl. lia.
  - intros m sk sg.
    change (@crypto_sign_detached Reference.provider)
      with Reference.crypto_sign_detached.
    unfold Reference.crypto_sign_detached.
    destruct sk as [sk |]; [| discriminate].
    destruct (negb (length sk =? 64)%nat); [discriminate |].
    intros H. injection H as <-.
    unfold Reference.tag_of. rewrite length_app, !sha256_length. reflexivity.
Qed.

(** ** The class *)

#[local] Arguments firstn : simpl never.
#[local] Arguments skipn : simpl never.
#[local] Arguments repeat : simpl never.
#[local] Arguments append : simpl never.
#[local] Arguments String.eqb : simpl never.
#[local] Arguments Nat.eqb : simpl never.
#[local] Arguments includes_str : simpl never.
#[local] Arguments includes_nat : simpl never.
#[local] Arguments truthy : simpl never.
#[local] Arguments js_slice : simpl never.
#[local] Arguments encrypted : simpl never.
#[local] Arguments publicOrSecret : simpl never.
#[local] Arguments String.length : simpl never.
#[local] Arguments length : simpl never.

(** Unfold the monad so that a method becomes a function of the state. *)
Ltac unfold_js :=
  unfold new_Key, initialize, publicKey, secretKey, publicKeyHash, sign, verify,
    bind, assign, this, throw, ret, call, resolve, try_catch in *.

(** Split on the next test or call the method performs. *)
Ltac split_step :=
  match goal with
  | |- context [let (_, _) := ?p in _] => is_var p; destruct p
  | |- context [if ?b then _ else _] =>
      lazymatch b with
      | true => fail
      | false => fail
      | _ => destruct b eqn:?
      end
  | |- context [match ?x with inl _ => _ | inr _ => _ end] => destruct x eqn:?
  | |- context [match ?x with Some _ => _ | None => _ end] => destruct x eqn:?
  end.


(** Evaluate the comparisons of the goal whose arguments are literals. *)
Ltac eval_tests :=
  repeat match goal with
  | |- context [includes_str ?l ?s] =>
      let v := eval vm_compute in (includes_str l s) in
      match v with
      | true => change (includes_str l s) with true
      | false => change (includes_str l s) with false
      end
  | |- context [String.eqb ?a ?b] =>
      let v := eval vm_compute in (String.eqb a b) in
      match v with
      | true => change (String.eqb a b) with true
      | false => change (String.eqb a b) with false
      end
  end.

(** Follow every path of a method. *)
Ltac branches := repeat (first [progress eval_tests; cbn | split_step; cbn]).
Ltac all_paths := unfold_js; cbn; branches.

Section Initializer.
Context {P : Provider}.

(** The initializer either runs to its end and resolves [ready], or
    throws and leaves [ready] untouched. *)
Lemma new_Key_settles key passphrase email :
  let c := new_Key key passphrase email in
  (initializing c = Fulfilled /\ ready (this_ c) = Fulfilled) \/
  (exists e, initializing c = Rejected e /\ ready (this_ c) = Pending).
Proof.
  all_paths;
    solve [ left; split; reflexivity | right; eexists; split; reflexivity ].
Qed.

Lemma init_fundraiser_no_passphrase key passphrase email :
  truthy email = true -> truthy passphrase = false ->
  new_Key key passphrase email
  = mkConstruction unborn (Rejected MissingPassphraseFundraiser).
Proof.
  intros He Hp. unfold_js. rewrite He, Hp. reflexivity.
Qed.

Lemma init_bad_curve key passphrase email :
  truthy email = false -> validCurve key = false ->
  new_Key key passphrase email
  = mkConstruction (with_curve (js_slice key 0 2) unborn)
                   (Rejected InvalidCurvePrefix).
Proof.
  unfold validCurve. intros He Hc. unfold_js. rewrite He. cbn.
  rewrite Hc. reflexivity.
Qed.

Lemma init_bad_length key passphrase email :
  truthy email = false -> validCurve key = true -> validLength key = false ->
  new_Key key passphrase email
  = mkConstruction (with_curve (js_slice key 0 2) unborn)
                   (Rejected InvalidKeyLength).
Proof.
  unfold validCurve, validLength. intros He Hc Hl. unfold_js. rewrite He. cbn.
  rewrite Hc, Hl. reflexivity.
Qed.

Lemma init_bad_tag key passphrase email :
  truthy email = false -> validCurve key = true -> validLength key = true ->
  validTag key = false ->
  new_Key key passphrase email
  = mkConstruction (with_curve (js_slice key 0 2) unborn)
                   (Rejected InvalidKeyTag).
Proof.
  unfold validCurve, validLength, validTag. intros He Hc Hl Ht.
  unfold_js. rewrite He. cbn. rewrite Hc, Hl. cbn. rewrite Ht. reflexivity.
Qed.

Lemma init_decode_fails key passphrase email w :
  truthy email = false -> validCurve key = true -> validLength key = true ->
  validTag key = true ->
  b58cdecode key (prefix (decodePrefixTag key)) = inl w ->
  new_Key key passphrase email
  = mkConstruction
      (with_isSecret (publicOrSecret key =? "sk") (with_curve (js_slice key 0 2) unborn))
      (Rejected (Foreign w)).
Proof.
  unfold validCurve, validLength, validTag, decodePrefixTag.
  intros He Hc Hl Ht Hd. unfold_js. rewrite He. cbn. rewrite Hc, Hl. cbn.
  rewrite Ht. cbn.
  destruct (publicOrSecret key =? "sk"); rewrite Hd; reflexivity.
Qed.

Lemma init_encrypted_no_passphrase key passphrase email raw :
  truthy email = false -> validCurve key = true -> validLength key = true ->
  validTag key = true -> encrypted key = true -> truthy passphrase = false ->
  b58cdecode key (prefix (decodePrefixTag key)) = inr raw ->
  new_Key key passphrase email
  = mkConstruction
      (with_isSecret (publicOrSecret key =? "sk") (with_curve (js_slice key 0 2) unborn))
      (Rejected MissingPassphraseEncrypted).
Proof.
  unfold validCurve, validLength, validTag, decodePrefixTag.
  intros He Hc Hl Ht Hen Hp Hd. unfold_js. rewrite He. cbn. rewrite Hc, Hl. cbn.
  rewrite Ht. cbn. rewrite Hen in *. rewrite Hp. cbn.
  destruct (publicOrSecret key =? "sk"); rewrite Hd; reflexivity.
Qed.

Lemma init_decryption_fails key passphrase email raw ek w :
  truthy email = false -> validCurve key = true -> validLength key = true ->
  validTag key = true -> encrypted key = true -> truthy passphrase = true ->
  b58cdecode key (prefix (decodePrefixTag key)) = inr raw ->
  pbkdf2Sync (tmpl passphrase) (Buf (firstn 8 raw)) 32768 32 "sha512" = inr ek ->
  crypto_secretbox_open_easy (skipn 8 raw) (repeat x00 24) ek = inl w ->
  new_Key key passphrase email
  = mkConstruction
      (with_isSecret (publicOrSecret key =? "sk") (with_curve (js_slice key 0 2) unborn))
      (Rejected (Foreign w)).
Proof.
  unfold validCurve, validLength, validTag, decodePrefixTag.
  intros He Hc Hl Ht Hen Hp Hd Hs Ho. unfold_js. rewrite He. cbn.
  rewrite Hc, Hl. cbn. rewrite Ht. cbn. rewrite Hen in *. rewrite Hp. cbn.
  destruct (publicOrSecret key =? "sk");
    rewrite Hd; cbn; rewrite Hs; cbn; rewrite Ho; reflexivity.
Qed.

(** A public key that is not marked as encrypted is stored as it is
    decoded, whatever its curve. *)
Lemma init_public_plain key passphrase email raw :
  truthy email = false -> validCurve key = true -> validLength key = true ->
  publicOrSecret key = "pk" -> encrypted key = false ->
  b58cdecode key (prefix (js_slice key 0 2 ++ "pk")) = inr raw ->
  new_Key key passphrase email
  = mkConstruction
      (mkKey (Some raw) None (Some false) false "44'/1729'/0'/0'" 0 Fulfilled
             (Some (js_slice key 0 2)))
      Fulfilled.
Proof.
  unfold validCurve, validLength.
  intros He Hc Hl Ht Hen Hd. unfold_js. rewrite He. cbn. rewrite Hc, Hl. cbn.
  rewrite Ht, Hen. eval_tests. cbn. rewrite Hd. reflexivity.
Qed.


Lemma init_p2_secret_plain key passphrase email raw :
  truthy email = false -> js_slice key 0 2 = "p2" -> validLength key = true ->
  publicOrSecret key = "sk" -> encrypted key = false ->
  b58cdecode key (prefix "p2sk") = inr raw ->
  new_Key key passphrase email
  = mkConstruction
      (mkKey None (Some raw) (Some true) false "44'/1729'/0'/0'" 0 Pending (Some "p2"))
      (Rejected UnsupportedCurve).
Proof.
  unfold validLength.
  intros He Hc Hl Ht Hen Hd. unfold_js. rewrite He. cbn. rewrite Hc.
  eval_tests. rewrite Hl. cbn. rewrite Ht, Hen. eval_tests. cbn.
  change ("p2" ++ "" ++ "sk") with "p2sk". rewrite Hd. reflexivity.
Qed.

Lemma init_p2_secret_encrypted key passphrase email raw ek plain :
  truthy email = false -> js_slice key 0 2 = "p2" -> validLength key = true ->
  publicOrSecret key = "sk" -> encrypted key = true -> truthy passphrase = true ->
  b58cdecode key (prefix "p2esk") = inr raw ->
  pbkdf2Sync (tmpl passphrase) (Buf (firstn 8 raw)) 32768 32 "sha512" = inr ek ->
  crypto_secretbox_open_easy (skipn 8 raw) (repeat x00 24) ek = inr plain ->
  new_Key key passphrase email
  = mkConstruction
      (mkKey None (Some plain) (Some true) false "44'/1729'/0'/0'" 0 Pending (Some "p2"))
      (Rejected UnsupportedCurve).
Proof.
  unfold validLength.
  intros He Hc Hl Ht Hen Hp Hd Hs Ho. unfold_js. rewrite He. cbn.
  rewrite Hc. eval_tests. rewrite Hl. cbn. rewrite Ht, Hen, Hp. eval_tests. cbn.
  change ("p2" ++ "e" ++ "sk") with "p2esk". rewrite Hd. cbn.
  rewrite Hs. cbn. rewrite Ho. reflexivity.
Qed.

Lemma curve_tag_cases c :
  includes_str ["sp"; "p2"; "ed"] c = true -> c = "sp" \/ c = "p2" \/ c = "ed".
Proof.
  unfold includes_str. cbn [existsb]. intros H.
  apply orb_true_iff in H. destruct H as [H | H];
    [left; apply String.eqb_eq; exact H |].
  apply orb_true_iff in H. destruct H as [H | H];
    [right; left; apply String.eqb_eq; exact H |].
  apply orb_true_iff in H. destruct H as [H | H]; [| discriminate].
  right; right; apply String.eqb_eq; exact H.
Qed.

Lemma validCurve_of_tag key c :
  js_slice key 0 2 = c -> includes_str ["sp"; "p2"; "ed"] c = true ->
  validCurve key = true.
Proof. intros <- H. exact H. Qed.

(** The initializer on an encoded key that passes the three checks and
    decodes, up to the dispatch on the curve. *)
Lemma init_secret_stage key passphrase email raw plain :
  truthy email = false -> validCurve key = true -> validLength key = true ->
  publicOrSecret key = "sk" ->
  b58cdecode key (prefix (decodePrefixTag key)) = inr raw ->
  opens_to key passphrase raw plain ->
  initialize key passphrase email resolve unborn
  = ((assign (with_secretKey (Some plain)) ;;
      (if opt_str_eqb (Some (js_slice key 0 2)) "ed" then
         if Nat.eqb (length plain) 64 then
           assign (with_publicKey (Some (skipn 32 plain)))
         else
           ' (publicKey, privateKey) <- call (crypto_sign_seed_keypair plain) ;;
           assign (with_publicKey (Some publicKey)) ;;
           assign (with_secretKey (Some privateKey))
       else if opt_str_eqb (Some (js_slice key 0 2)) "sp" then
         pk <- call (publicKeyCreate plain) ;;
         assign (with_publicKey (Some pk))
       else if opt_str_eqb (Some (js_slice key 0 2)) "p2" then
         throw (Error "Curve P256 key is not yet supported.")
       else
         throw (Error "Invalid key")) ;;
      resolve)
     (with_isSecret true (with_curve (js_slice key 0 2) unborn))).
Proof.
  unfold validCurve, validLength, decodePrefixTag, opens_to.
  intros He Hc Hl Ht Hd Ho. unfold initialize. rewrite He.
  unfold bind, assign, this, throw, ret, call. cbn.
  rewrite Hc, Hl. cbn. rewrite Ht in *. eval_tests. cbn.
  change ("sk" =? "sk") with true in Hd. cbv iota in Hd.
  destruct (encrypted key).
  - destruct Ho as [Hp [ek [Hs Hopen]]]. rewrite Hd. cbn. rewrite Hp. cbn.
    rewrite Hs. cbn. rewrite Hopen. cbn. reflexivity.
  - subst plain. rewrite Hd. cbn. reflexivity.
Qed.
End Initializer.

Section Lifecycle.
Context {P : Provider}.

(** C5 (amended): with no email supplied, an input whose length is not one
    of 54, 55, 88, 98 fails with InvalidKeyLength when its first two
    characters are a valid curve tag; otherwise the curve check, which
    runs before the length check, fails it with InvalidCurvePrefix.  In
    both cases the readiness signal stays pending. *)
Theorem bad_length_is_reported_after_the_curve key passphrase email :
  truthy email = false -> validLength key = false ->
  let c := new_Key key passphrase email in
  initializing c
  = Rejected (if validCurve key then InvalidKeyLength else InvalidCurvePrefix)
  /\ ready (this_ c) = Pending.
Proof.
  intros He Hl. cbv zeta.
  destruct (validCurve key) eqn:Hc.
  - rewrite (init_bad_length key passphrase email He Hc Hl). split; reflexivity.
  - rewrite (init_bad_curve key passphrase email He Hc). split; reflexivity.
Qed.

(** What becomes of the errors of the initializer, for every credential:
    each of them rejects the promise that [initialize] returns, which the
    constructor drops, and none of them reaches [ready], which is left
    pending; [ready] is never rejected and is resolved exactly when the
    initializer runs to its end. *)
Theorem readiness_is_resolved_or_left_pending key passphrase email :
  let c := new_Key key passphrase email in
  (forall e, ready (this_ c) <> Rejected e) /\
  (ready (this_ c) = Fulfilled <-> initializing c = Fulfilled) /\
  (forall e, initializing c = Rejected e -> ready (this_ c) = Pending) /\
  (truthy email = true -> truthy passphrase = false ->
     initializing c = Rejected MissingPassphraseFundraiser) /\
  (truthy email = false -> validCurve key = false ->
     initializing c = Rejected InvalidCurvePrefix) /\
  (truthy email = false -> validCurve key = true -> validLength key = false ->
     initializing c = Rejected InvalidKeyLength) /\
  (truthy email = false -> validCurve key = true -> validLength key = true ->
     validTag key = false ->
     initializing c = Rejected InvalidKeyTag) /\
  (truthy email = false -> validCurve key = true -> validLength key = true ->
     validTag key = true ->
     forall w, b58cdecode key (prefix (decodePrefixTag key)) = inl w ->
     initializing c = Rejected (Foreign w)) /\
  (truthy email = false -> validCurve key = true -> validLength key = true ->
     validTag key = true -> encrypted key = true -> truthy passphrase = false ->
     forall raw, b58cdecode key (prefix (decodePrefixTag key)) = inr raw ->
     initializing c = Rejected MissingPassphraseEncrypted) /\
  (truthy email = false -> validCurve key = true -> validLength key = true ->
     validTag key = true -> encrypted key = true -> truthy passphrase = true ->
     forall raw ek w,
       b58cdecode key (prefix (decodePrefixTag key)) = inr raw ->
       pbkdf2Sync (tmpl passphrase) (Buf (firstn 8 raw)) 32768 32 "sha512" = inr ek ->
       crypto_secretbox_open_easy (skipn 8 raw) (repeat x00 24) ek = inl w ->
       initializing c = Rejected (Foreign w)) /\
  (truthy email = false -> js_slice key 0 2 = "p2" -> validLength key = true ->
     publicOrSecret key = "sk" -> encrypted key = false ->
     forall raw, b58cdecode key (prefix "p2sk") = inr raw ->
     initializing c = Rejected UnsupportedCurve).
Proof.
  cbv zeta.
  pose proof (new_Key_settles key passphrase email) as Hs. cbv zeta in Hs.
  repeat match goal with |- _ /\ _ => split end.
  - intros e He. destruct Hs as [[_ Hr] | [e' [_ Hr]]]; congruence.
  - destruct Hs as [[Hi Hr] | [e' [Hi Hr]]]; split; congruence.
  - intros e He. destruct Hs as [[Hi Hr] | [e' [Hi Hr]]]; congruence.
  - intros H1 H2. now rewrite init_fundraiser_no_passphrase.
  - intros H1 H2. now rewrite init_bad_curve.
  - intros H1 H2 H3. now rewrite init_bad_length.
  - intros H1 H2 H3 H4. now rewrite init_bad_tag.
  - intros H1 H2 H3 H4 w H5. now rewrite (init_decode_fails _ _ _ w).
  - intros H1 H2 H3 H4 H5 H6 raw H7.
    now rewrite (init_encrypted_no_passphrase _ _ _ raw).
  - intros H1 H2 H3 H4 H5 H6 raw ek w H7 H8 H9.
    now rewrite (init_decryption_fails _ _ _ raw ek w).
  - intros H1 H2 H3 H4 H5 raw H6. now rewrite (init_p2_secret_plain _ _ _ raw).
Qed.

(** C1 (amended): with no email supplied, a credential whose curve tag is
    p2 fails with InvalidKeyLength when its length is not one of 54, 55,
    88, 98 and, its length being valid, with InvalidKeyTag when its type
    tag is neither pk nor sk.  When its type tag is sk it never reaches
    Ready: initialization fails with the decoder's exception when the
    base58check decoding fails; for an encrypted key, with the missing
    passphrase error when no passphrase is given and with the exception of
    the key stretching or of the decryption when one of them fails; and
    with UnsupportedCurve otherwise.  A p2 credential of valid length whose
    type tag is pk fails in the same way on decoding, passphrase and
    decryption, and otherwise is stored and becomes Ready. *)
Theorem p2_secret_keys_are_rejected key passphrase email :
  truthy email = false -> js_slice key 0 2 = "p2" ->
  let c := new_Key key passphrase email in
  (validLength key = false ->
     initializing c = Rejected InvalidKeyLength /\ ready (this_ c) = Pending) /\
  (validLength key = true -> validTag key = false ->
     initializing c = Rejected InvalidKeyTag /\ ready (this_ c) = Pending) /\
  (publicOrSecret key = "sk" ->
     ready (this_ c) = Pending /\
     initializing c
     = Rejected
         (if validLength key then
            match b58cdecode key
                    (prefix ("p2" ++ (if encrypted key then "e" else "") ++ "sk")) with
            | inl w => Foreign w
            | inr raw =>
                if encrypted key then
                  if truthy passphrase then
                    match pbkdf2Sync (tmpl passphrase) (Buf (firstn 8 raw))
                            32768 32 "sha512" with
                    | inl w => Foreign w
                    | inr encryptionKey =>
                        match crypto_secretbox_open_easy (skipn 8 raw)
                                (repeat x00 24) encryptionKey with
                        | inl w => Foreign w
                        | inr _ => UnsupportedCurve
                        end
                    end
                  else MissingPassphraseEncrypted
                else UnsupportedCurve
            end
          else InvalidKeyLength)) /\
  (publicOrSecret key = "pk" -> validLength key = true ->
     let stored plain :=
       initializing c = Fulfilled /\ ready (this_ c) = Fulfilled /\
       _publicKey (this_ c) = Some plain /\ _secretKey (this_ c) = None /\
       curve (this_ c) = Some "p2" in
     let failed e :=
       initializing c = Rejected e /\ ready (this_ c) = Pending in
     match b58cdecode key (prefix ("p2" ++ "pk")) with
     | inl w => failed (Foreign w)
     | inr raw =>
         if encrypted key then
           if truthy passphrase then
             match pbkdf2Sync (tmpl passphrase) (Buf (firstn 8 raw))
                     32768 32 "sha512" with
             | inl w => failed (Foreign w)
             | inr encryptionKey =>
                 match crypto_secretbox_open_easy (skipn 8 raw)
                         (repeat x00 24) encryptionKey with
                 | inl w => failed (Foreign w)
                 | inr plain => stored plain
                 end
             end
           else failed MissingPassphraseEncrypted
         else stored raw
     end).
Proof.
  intros He Hc. cbv zeta.
  assert (Hv : validCurve key = true)
    by (unfold validCurve; rewrite Hc; reflexivity).
  repeat match goal with |- _ /\ _ => split end.
  - intros Hl. rewrite (init_bad_length key passphrase email He Hv Hl).
    split; reflexivity.
  - intros Hl Ht. rewrite (init_bad_tag key passphrase email He Hv Hl Ht).
    split; reflexivity.
  - intros Ht. unfold validLength. unfold_js. rewrite He. cbn. rewrite Hc.
    eval_tests. cbn. rewrite Ht. eval_tests. cbn.
    destruct (includes_nat [54; 55; 88; 98] (String.length key)); cbn;
      [| split; reflexivity].
    destruct (b58cdecode key
                (prefix ("p2" ++ (if encrypted key then "e" else "") ++ "sk")))
      as [w | raw]; cbn; [split; reflexivity |].
    destruct (encrypted key); cbn; [| eval_tests; cbn; split; reflexivity].
    destruct (truthy passphrase); cbn; [| split; reflexivity].
    destruct (pbkdf2Sync (tmpl passphrase) (Buf (firstn 8 raw)) 32768 32 "sha512")
      as [w | ek]; cbn; [split; reflexivity |].
    destruct (crypto_secretbox_open_easy (skipn 8 raw) (repeat x00 24) ek)
      as [w | plain]; cbn; [split; reflexivity |].
    eval_tests. cbn. split; reflexivity.
  - intros Ht Hl. unfold validLength in Hl. unfold_js. rewrite He. cbn.
    rewrite Hc. eval_tests. cbn. rewrite Hl. cbn. rewrite Ht. eval_tests. cbn.
    destruct (b58cdecode key (prefix ("p2" ++ "pk"))) as [w | raw]; cbn;
      [split; reflexivity |].
    destruct (encrypted key); cbn; [| repeat split; reflexivity].
    destruct (truthy passphrase); cbn; [| split; reflexivity].
    destruct (pbkdf2Sync (tmpl passphrase) (Buf (firstn 8 raw)) 32768 32 "sha512")
      as [w | ek]; cbn; [split; reflexivity |].
    destruct (crypto_secretbox_open_easy (skipn 8 raw) (repeat x00 24) ek)
      as [w | plain]; cbn; [split; reflexivity |].
    repeat split; reflexivity.
Qed.

(** C8: after initialization, on every path (those that fail included),
    a Key whose [isSecret] is not true has no secret-key bytes. *)
Theorem no_secret_bytes_unless_isSecret key passphrase email :
  _isSecret (this_ (new_Key key passphrase email)) <> Some true ->
  _secretKey (this_ (new_Key key passphrase email)) = None.
Proof.
  all_paths; intros H; try reflexivity; exfalso; apply H; reflexivity.
Qed.

(** The same holds when [initialize] is run again on an object that
    already holds a secret key and succeeds. *)
Lemma reinitialized_public_key_has_no_secret_bytes key passphrase email k0 k :
  initialize key passphrase email resolve k0 = (k, inr tt) ->
  _isSecret k = Some false -> _secretKey k = None.
Proof.
  destruct k0 as [pk0 sk0 is0 l0 lp0 lc0 r0 c0].
  unfold_js. cbn.
  repeat (split_step; cbn); intros H; inversion H; subst; clear H; cbn;
    try discriminate; destruct r0; cbn; intros H; try discriminate H; reflexivity.
Qed.
End Lifecycle.

(** C5, counterexample: the three-character text [abc], given with no
    email, fails with the curve-prefix error, not with InvalidKeyLength. *)
Lemma short_text_fails_on_its_prefix :
  validLength "abc" = false /\
  initializing (@new_Key Reference.provider "abc" None None)
  = Rejected InvalidCurvePrefix /\
  InvalidCurvePrefix <> InvalidKeyLength.
Proof.
  split; [reflexivity | split; [vm_compute; reflexivity | discriminate]].
Qed.

(** The four-character text [edsk] has a valid curve tag and a wrong length. *)
Lemma bad_length_is_reported_after_the_curve_witness :
  initializing (@new_Key Reference.provider "edsk" None None)
  = Rejected InvalidKeyLength.
Proof.
  exact (proj1 (@bad_length_is_reported_after_the_curve Reference.provider
                  "edsk" None None eq_refl eq_refl)).
Defined.

(** C3, the failing construction: on the text [abc] the initializer throws
    the curve-prefix error for its caller, but that error only rejects the
    promise the constructor drops; the readiness signal is not rejected
    with it and is left pending. *)
Lemma readiness_is_left_pending :
  let c := @new_Key Reference.provider "abc" None None in
  initializing c = Rejected InvalidCurvePrefix /\
  ready (this_ c) = Pending /\
  ready (this_ c) <> Rejected InvalidCurvePrefix.
Proof.
  vm_compute. repeat split; discriminate.
Qed.

(** C1, counterexample: a well-formed p2 public key (tag [p2pk], 55
    characters, valid checksum) is decoded and stored, and the Key becomes
    Ready; the two-character text [p2] fails with InvalidKeyLength. *)
Lemma p2_public_key_becomes_ready :
  let c := @new_Key Reference.provider Samples.p2pk_key None None in
  js_slice Samples.p2pk_key 0 2 = "p2" /\
  initializing c = Fulfilled /\ ready (this_ c) = Fulfilled /\
  curve (this_ c) = Some "p2" /\
  initializing (@new_Key Reference.provider "p2" None None) = Rejected InvalidKeyLength.
Proof.
  vm_compute. repeat split.
Qed.

(** A well-formed p2 secret key (tag [p2sk], 54 characters). *)
Lemma p2_secret_keys_are_rejected_witness :
  initializing (@new_Key Reference.provider Samples.p2sk_key None None)
  = Rejected UnsupportedCurve.
Proof.
  destruct (@p2_secret_keys_are_rejected Reference.provider Samples.p2sk_key
              None None eq_refl eq_refl) as (_ & _ & H & _).
  destruct (H eq_refl) as [_ H2]. rewrite H2. vm_compute. reflexivity.
Defined.

(** A Key constructed from an ed public key. *)
Lemma no_secret_bytes_unless_isSecret_witness :
  _isSecret (this_ (@new_Key Reference.provider Samples.edpk_key None None))
  = Some false /\
  _secretKey (this_ (@new_Key Reference.provider Samples.edpk_key None None)) = None.
Proof.
  split.
  - vm_compute. reflexivity.
  - apply (@no_secret_bytes_unless_isSecret Reference.provider Samples.edpk_key None None).
    vm_compute. discriminate.
Defined.

Section Decoding.
Context {P : Provider}.





End Decoding.

(** C7: fundraiser derivation is deterministic.  Take two runs of the
    initializer on the same (mnemonic, email, passphrase), each in an
    environment of its own and on an object in any prior state.  If the
    two environments agree on the salt normalisation, on the PBKDF2
    stretch of the mnemonic under that salt, on the seed expansion and on
    the hash and its encoding under [tz1], however they differ elsewhere,
    then the two runs end alike and, when they complete, the two Keys give
    the same [publicKeyHash()]: the encoding under [tz1] of the 20-byte
    hash of the public key expanded from the first 32 bytes of the
    stretch.  In particular two Keys constructed from the same triple do. *)
Theorem fundraiser_derivation_is_deterministic
        (P1 P2 : Provider) mnemonic email passphrase :
  truthy (Some email) = true ->
  @fundraiserSalt P1 email passphrase = @fundraiserSalt P2 email passphrase ->
  @pbkdf2Sync P1 mnemonic (Str ("mnemonic" ++ @fundraiserSalt P1 email passphrase))
     2048 64 "sha512"
  = @pbkdf2Sync P2 mnemonic (Str ("mnemonic" ++ @fundraiserSalt P2 email passphrase))
       2048 64 "sha512" ->
  (forall seed, @crypto_sign_seed_keypair P1 seed = @crypto_sign_seed_keypair P2 seed) ->
  (forall pk, @crypto_generichash P1 20 (Some pk) = @crypto_generichash P2 20 (Some pk)) ->
  (forall h, @b58cencode P1 (Some h) (@prefix P1 "tz1")
             = @b58cencode P2 (Some h) (@prefix P2 "tz1")) ->
  (forall k1 k2,
     snd (@initialize P1 mnemonic (Some passphrase) (Some email) resolve k1)
     = snd (@initialize P2 mnemonic (Some passphrase) (Some email) resolve k2) /\
     (snd (@initialize P1 mnemonic (Some passphrase) (Some email) resolve k1) = inr tt ->
      snd (@publicKeyHash P1
             (fst (@initialize P1 mnemonic (Some passphrase) (Some email) resolve k1)))
      = snd (@publicKeyHash P2
               (fst (@initialize P2 mnemonic (Some passphrase) (Some email) resolve k2)))
      /\
      exists seed pk sk,
        @pbkdf2Sync P1 mnemonic
           (Str ("mnemonic" ++ @fundraiserSalt P1 email passphrase)) 2048 64 "sha512"
        = inr seed /\
        @crypto_sign_seed_keypair P1 (firstn 32 seed) = inr (pk, sk) /\
        snd (@publicKeyHash P1
               (fst (@initialize P1 mnemonic (Some passphrase) (Some email) resolve k1)))
        = match @crypto_generichash P1 20 (Some pk) with
          | inl w => inl (Foreign w)
          | inr h => seen (@b58cencode P1 (Some h) (@prefix P1 "tz1"))
          end)) /\
  initializing (@new_Key P1 mnemonic (Some passphrase) (Some email))
  = initializing (@new_Key P2 mnemonic (Some passphrase) (Some email)) /\
  (initializing (@new_Key P1 mnemonic (Some passphrase) (Some email)) = Fulfilled ->
   snd (@publicKeyHash P1 (this_ (@new_Key P1 mnemonic (Some passphrase) (Some email))))
   = snd (@publicKeyHash P2 (this_ (@new_Key P2 mnemonic (Some passphrase) (Some email))))).
Proof.
  intros He Hsalt Hstretch Hexpand Hhash Hencode.
  unfold fundraiserSalt in *.
  assert (Hruns : forall k1 k2,
     snd (@initialize P1 mnemonic (Some passphrase) (Some email) resolve k1)
     = snd (@initialize P2 mnemonic (Some passphrase) (Some email) resolve k2) /\
     (snd (@initialize P1 mnemonic (Some passphrase) (Some email) resolve k1) = inr tt ->
      snd (@publicKeyHash P1
             (fst (@initialize P1 mnemonic (Some passphrase) (Some email) resolve k1)))
      = snd (@publicKeyHash P2
               (fst (@initialize P2 mnemonic (Some passphrase) (Some email) resolve k2)))
      /\
      exists seed pk sk,
        @pbkdf2Sync P1 mnemonic
           (Str ("mnemonic" ++
                 @normalize P1 "NFKD"
                   (@textDecode P1 (@textEncode P1 (email ++ passphrase)))))
           2048 64 "sha512"
        = inr seed /\
        @crypto_sign_seed_keypair P1 (firstn 32 seed) = inr (pk, sk) /\
        snd (@publicKeyHash P1
               (fst (@initialize P1 mnemonic (Some passphrase) (Some email) resolve k1)))
        = match @crypto_generichash P1 20 (Some pk) with
          | inl w => inl (Foreign w)
          | inr h => seen (@b58cencode P1 (Some h) (@prefix P1 "tz1"))
          end)).
  { intros [pk1 sk1 is1 l1 lp1 lc1 r1 c1] [pk2 sk2 is2 l2 lp2 lc2 r2 c2].
    unfold initialize, publicKeyHash, prefixMap, bind, assign, this, throw, ret,
      call, resolve.
    rewrite He. cbn.
    destruct (truthy (Some passphrase)); cbn;
      [| split; [reflexivity | intros H; discriminate H]].
    rewrite <- Hstretch.
    destruct (@pbkdf2Sync P1 mnemonic _ 2048 64 "sha512") as [w | seed] eqn:Hs; cbn;
      [split; [reflexivity | intros H; discriminate H] |].
    rewrite <- Hexpand.
    destruct (@crypto_sign_seed_keypair P1 (firstn 32 seed)) as [w | [pk sk]] eqn:Hk;
      cbn; [split; [reflexivity | intros H; discriminate H] |].
    assert (Hfin : forall (x : exn + string),
      x = match @crypto_generichash P1 20 (Some pk) with
          | inl w => inl (Foreign w)
          | inr h => seen (@b58cencode P1 (Some h) (@prefix P1 "tz1"))
          end ->
      exists seed0 pk0 sk0,
        @inr string Uint8Array seed = inr seed0 /\
        @crypto_sign_seed_keypair P1 (firstn 32 seed0) = inr (pk0, sk0) /\
        x = match @crypto_generichash P1 20 (Some pk0) with
            | inl w => inl (Foreign w)
            | inr h => seen (@b58cencode P1 (Some h) (@prefix P1 "tz1"))
            end).
    { intros x Hx. exists seed, pk, sk. repeat split; assumption. }
    destruct r1, r2; cbn; eval_tests; cbn;
      (split; [reflexivity |]); intros _; rewrite <- Hhash;
      (destruct (@crypto_generichash P1 20 (Some pk)) as [w | h]; cbn;
       [split; [reflexivity | apply Hfin; reflexivity] |]);
      rewrite <- Hencode;
      (destruct (@b58cencode P1 (Some h) (@prefix P1 "tz1")); cbn;
       (split; [reflexivity | apply Hfin; reflexivity])). }
  split; [exact Hruns |].
  destruct (Hruns unborn unborn) as [Hend Hhashes].
  unfold new_Key.
  destruct (@initialize P1 mnemonic (Some passphrase) (Some email) resolve unborn)
    as [ka [ea | []]];
    destruct (@initialize P2 mnemonic (Some passphrase) (Some email) resolve unborn)
      as [kb [eb | []]];
    cbn in *; try discriminate Hend.
  - injection Hend as ->. split; [reflexivity | intros H; discriminate H].
  - split; [reflexivity |]. intros _. exact (proj1 (Hhashes eq_refl)).
Qed.



(** The reference provider and the provider that offers the fundraiser
    path only; a fresh object and one that already holds a public key. *)
Lemma fundraiser_derivation_is_deterministic_witness :
  snd (@initialize Reference.provider Samples.mnemonic (Some "secret")
         (Some "user@example.org") resolve unborn) = inr tt /\
  snd (@publicKeyHash Reference.provider
         (fst (@initialize Reference.provider Samples.mnemonic (Some "secret")
                 (Some "user@example.org") resolve unborn)))
  = snd (@publicKeyHash Reference.fundraiser_only
           (fst (@initialize Reference.fundraiser_only Samples.mnemonic
                   (Some "secret") (Some "user@example.org") resolve
                   Built.from_edpk))).
Proof.
  split; [vm_compute; reflexivity |].
  refine (proj1 (proj2 (proj1 (@fundraiser_derivation_is_deterministic
            Reference.provider Reference.fundraiser_only
            Samples.mnemonic "user@example.org" "secret"
            eq_refl eq_refl eq_refl (fun _ => eq_refl) (fun _ => eq_refl)
            (fun _ => eq_refl)) unborn Built.from_edpk) _)).
  vm_compute. reflexivity.
Defined.

Section Accessors.
Context {P : Provider}.

(** Until the initializer has run to its end there are no public-key
    bytes. *)
Lemma no_public_bytes_before_readiness key passphrase email :
  ready (this_ (new_Key key passphrase email)) <> Fulfilled ->
  _publicKey (this_ (new_Key key passphrase email)) = None.
Proof.
  all_paths; intros H; try reflexivity; exfalso; apply H; reflexivity.
Qed.

(** C4 (amended): [publicKey()] makes no readiness check and raises no
    error of its own.  It hands the public-key field and the prefix found
    under [`${curve}pk`] to the base58check encoder and returns, or
    fails, as the encoder does; whenever initialization has not completed
    or has failed the public-key field is absent, so the encoder is
    called on an absent payload, and where the encoder refuses an absent
    payload [publicKey()] fails with the encoder's exception. *)
Theorem publicKey_defers_to_the_encoder key passphrase email :
  let c := new_Key key passphrase email in
  _publicKey unborn = None /\
  (ready (this_ c) <> Fulfilled -> _publicKey (this_ c) = None) /\
  (forall k,
     publicKey k
     = (k, seen (b58cencode (_publicKey k) (prefix (tmpl (curve k) ++ "pk"))))) /\
  (forall k e, snd (publicKey k) = inl e -> ~ raisedByKey e) /\
  ((forall pfx, exists w, b58cencode None pfx = inl w) ->
   ready (this_ c) <> Fulfilled ->
   exists w, snd (publicKey (this_ c)) = inl (Foreign w)).
Proof.
  cbv zeta.
  assert (Hpk : forall k,
    publicKey k
    = (k, seen (b58cencode (_publicKey k) (prefix (tmpl (curve k) ++ "pk"))))).
  { intros k. unfold_js.
    destruct (b58cencode (_publicKey k) (prefix (tmpl (curve k) ++ "pk")));
      reflexivity. }
  split; [reflexivity | split; [| split; [| split]]].
  - apply no_public_bytes_before_readiness.
  - exact Hpk.
  - intros k e. rewrite Hpk. cbn [snd].
    destruct (b58cencode (_publicKey k) (prefix (tmpl (curve k) ++ "pk")));
      cbn; intros H; inversion H; subst; cbn; auto.
  - intros Henc Hr. rewrite Hpk. cbn [snd].
    rewrite (no_public_bytes_before_readiness key passphrase email Hr).
    destruct (Henc (prefix
      (tmpl (curve (this_ (new_Key key passphrase email))) ++ "pk"))) as [w Hw].
    rewrite Hw. exists w. reflexivity.
Qed.

(** C9: [secretKey()] fails with NoSecretKey exactly when the secret-key
    bytes are absent.  It leaves the Key unchanged.  On an ed-curve Key
    that holds a secret it expands the first 32 stored bytes into a key
    pair and encodes the private key of that pair with the prefix [edsk];
    on another curve it encodes the stored bytes with the curve's sk
    prefix. *)
Theorem secretKey_fails_exactly_without_secret_bytes k :
  (snd (secretKey k) = inl NoSecretKey <-> _secretKey k = None) /\
  fst (secretKey k) = k /\
  (forall sk, _secretKey k = Some sk -> curve k = Some "ed" ->
     snd (secretKey k)
     = match crypto_sign_seed_keypair (firstn 32 sk) with
       | inl w => inl (Foreign w)
       | inr keypair => seen (b58cencode (Some (snd keypair)) (prefix "edsk"))
       end) /\
  (forall sk, _secretKey k = Some sk -> opt_str_eqb (curve k) "ed" = false ->
     snd (secretKey k)
     = seen (b58cencode (Some sk) (prefix (tmpl (curve k) ++ "sk")))).
Proof.
  repeat match goal with |- _ /\ _ => split end.
  - unfold_js. cbn. split.
    + destruct (_secretKey k); [| reflexivity].
      repeat (split_step; cbn); intros H; discriminate H.
    + intros ->. reflexivity.
  - unfold_js. cbn. destruct (_secretKey k); [| reflexivity].
    repeat (split_step; cbn); reflexivity.
  - intros sk Hs Hc. unfold_js. cbn. rewrite Hs, Hc. cbn. eval_tests.
    destruct (crypto_sign_seed_keypair (firstn 32 sk)) as [w | [pub priv]]; cbn;
      [reflexivity |].
    change ("ed" ++ "sk") with "edsk".
    destruct (b58cencode (Some priv) (prefix "edsk")); reflexivity.
  - intros sk Hs Hc. unfold_js. cbn. rewrite Hs, Hc. cbn.
    destruct (b58cencode (Some sk) (prefix (tmpl (curve k) ++ "sk"))); reflexivity.
Qed.
End Accessors.

(** C4, counterexample: before the initializer has run, and after it has
    failed, [publicKey()] does not fail with an error of the Key: the
    exception is the encoder's [TypeError] on the absent payload. *)
Lemma publicKey_of_an_unready_key_is_not_checked :
  let w := "TypeError: Cannot read property 'length' of undefined" in
  snd (@publicKey Reference.provider unborn) = inl (Foreign w) /\
  initializing (@new_Key Reference.provider "abc" None None)
  = Rejected InvalidCurvePrefix /\
  snd (@publicKey Reference.provider (this_ (@new_Key Reference.provider "abc" None None)))
  = inl (Foreign w) /\
  ~ raisedByKey (Foreign w).
Proof.
  vm_compute. repeat split. intros H. exact H.
Qed.

Section Signing.
Context {P : Provider}.

(** C10: on an ed-curve Key that holds no secret key, [sign] raises no
    missing-secret-key error, nor any error of the Key: nothing guards
    the secret key, and the absent value is what the detached-signing
    primitive receives. *)
Theorem sign_does_not_check_the_secret_key k bytes watermark :
  curve k = Some "ed" -> _secretKey k = None ->
  (forall e, snd (sign bytes watermark k) = inl e ->
     e <> NoSecretKey /\ ~ raisedByKey e) /\
  (forall bb digest,
     hex2buf bytes = inr bb ->
     crypto_generichash 32
       (Some (match watermark with Some w => mergebuf w bb | None => bb end))
     = inr digest ->
     snd (sign bytes watermark k)
     = match crypto_sign_detached digest None with
       | inl w => inl (Foreign w)
       | inr sig =>
           match b58cencode (Some sig) (prefix "edsig"),
                 b58cencode (Some sig) (prefix "sig") with
           | inr edsig, inr gsig =>
               inr (mkSigned bytes gsig edsig (bytes ++ buf2hex sig))
           | inl w, _ => inl (Foreign w)
           | inr _, inl w => inl (Foreign w)
           end
       end).
Proof.
  intros Hc Hs. split.
  - intros e. unfold_js. cbn.
    destruct (hex2buf bytes) as [w | bb]; cbn.
    + intros H; inversion H; subst. split; [discriminate | cbn; auto].
    + rewrite Hc, Hs. cbn. eval_tests. cbn.
      repeat (split_step; cbn); intros H; inversion H; subst;
        (split; [discriminate | cbn; auto]).
  - intros bb digest Hb Hd. unfold_js. cbn. rewrite Hb. cbn.
    rewrite Hc, Hs. cbn. eval_tests. cbn. rewrite Hd. cbn.
    repeat (split_step; cbn); reflexivity.
Qed.

(** What [verify] computes on an ed-curve Key that has public-key bytes,
    for a signature text that passes the curve test: the text itself and
    the bytes of the message, not decoded and not hashed, go to the
    verification primitive. *)
Lemma verify_passes_the_text_on k bytes signature pk :
  _publicKey k = Some pk -> curve k = Some "ed" ->
  js_slice signature 0 3 = "sig" \/ js_slice signature 0 2 = "ed" ->
  snd (verify bytes signature k)
  = match hex2buf bytes with
    | inl w => inl (Foreign w)
    | inr digest =>
        match crypto_sign_verify_detached signature digest pk with
        | inl _ => inl InvalidSignature
        | inr b => inr b
        end
    end.
Proof.
  intros Hp Hc Hs. unfold_js. cbn. rewrite Hp, Hc. cbn.
  assert (E : (if negb (js_slice signature 0 3 =? "sig")
               then if negb ("ed" =? js_slice signature 0 2)
                    then true else false
               else false) = false).
  { destruct Hs as [-> | ->]; eval_tests; cbn; [reflexivity |].
    destruct (negb (js_slice signature 0 3 =? "sig")); reflexivity. }
  destruct (negb (js_slice signature 0 3 =? "sig")).
  - destruct (negb ("ed" =? js_slice signature 0 2)); [discriminate E |].
    cbn. eval_tests. cbn. repeat (split_step; cbn); reflexivity.
  - cbn. eval_tests. cbn. repeat (split_step; cbn); reflexivity.
Qed.

(** With a lawful provider no signature text produced by [sign] is ever
    accepted by [verify] on the same Key and message: the text is longer
    than the 64 bytes the verification primitive insists on. *)
Lemma signed_text_is_never_accepted `{!Lawful P} k bytes watermark s :
  snd (sign bytes watermark k) = inr s ->
  curve k = Some "ed" /\
  68 <= String.length (sg_sig s) /\
  exists e,
    snd (verify bytes (sg_sig s) k) = inl e /\
    (e = MissingPublicKey \/ e = CurveMismatch \/ e = InvalidSignature) /\
    (_publicKey k <> None -> js_slice (sg_sig s) 0 3 = "sig" -> e = InvalidSignature).
Proof.
  unfold sign, bind, call, this, ret, throw. cbn.
  destruct (hex2buf bytes) as [w | bb] eqn:Hb; cbn; [discriminate |].
  destruct (curve k) as [c |] eqn:Hc; cbn; [| discriminate].
  destruct (c =? "ed") eqn:Hed; [| discriminate].
  apply String.eqb_eq in Hed. subst c.
  destruct (crypto_generichash 32 _) as [w | digest]; cbn; [discriminate |].
  destruct (crypto_sign_detached digest (_secretKey k)) as [w | sig] eqn:Hsig; cbn;
    [discriminate |].
  destruct (b58cencode (Some sig) (prefix "edsig")) as [w | edsig]; cbn;
    [discriminate |].
  destruct (b58cencode (Some sig) (prefix "sig")) as [w | gsig] eqn:Hg; cbn;
    [discriminate |].
  intros H. injection H as <-. cbn [sg_sig].
  pose proof (signature_length _ _ _ Hsig) as Hl.
  pose proof (text_is_longer _ _ _ Hg) as Ht.
  split; [reflexivity | split; [lia |]].
  unfold verify, bind, call, this, ret, throw, try_catch. cbn.
  destruct (_publicKey k) as [pk |]; cbn.
  2:{ eexists. split; [reflexivity | split; [auto | intros H; contradiction]]. }
  destruct (verify_checks_length gsig bb pk ltac:(lia)) as [w Hw]. rewrite Hw.
  destruct (negb (js_slice gsig 0 3 =? "sig")) eqn:Hp; cbn.
  - destruct (negb ("ed" =? js_slice gsig 0 2)); cbn.
    + eexists. split; [reflexivity | split; [auto |]].
      intros _ Hsg. rewrite Hsg in Hp. discriminate Hp.
    + eexists. split; [reflexivity | split; [auto | reflexivity]].
  - eexists. split; [reflexivity | split; [auto | reflexivity]].
Qed.
End Signing.

(** Signing with a Key constructed from an ed public key: the exception is
    the primitive's. *)
Lemma sign_does_not_check_the_secret_key_witness :
  ready (this_ (@new_Key Reference.provider Samples.edpk_key None None)) = Fulfilled /\
  curve (this_ (@new_Key Reference.provider Samples.edpk_key None None)) = Some "ed" /\
  _secretKey (this_ (@new_Key Reference.provider Samples.edpk_key None None)) = None /\
  snd (@sign Reference.provider "0a0b" None
         (this_ (@new_Key Reference.provider Samples.edpk_key None None)))
  = inl (Foreign "TypeError: unsupported input type for privateKey") /\
  Foreign "TypeError: unsupported input type for privateKey" <> NoSecretKey.
Proof.
  split; [vm_compute; reflexivity |].
  split; [vm_compute; reflexivity |].
  split; [vm_compute; reflexivity |].
  split; [vm_compute; reflexivity |].
  refine (proj1 (proj1 (@sign_does_not_check_the_secret_key Reference.provider
            (this_ (@new_Key Reference.provider Samples.edpk_key None None))
            "0a0b" None _ _) _ _)); vm_compute; reflexivity.
Defined.

(** C2, the failing round trip: the Key of the documentation's test vector
    signs the message [0a0b]; the [sig]-prefixed result, a text of 96
    characters, is handed to the verification primitive as it is, which
    refuses anything that is not 64 bytes long, and [verify] reports an
    invalid signature. *)
Theorem sign_then_verify_is_rejected :
  ready (this_ (@new_Key Reference.provider Samples.edsk_vector None None)) = Fulfilled /\
  curve (this_ (@new_Key Reference.provider Samples.edsk_vector None None)) = Some "ed" /\
  match snd (@sign Reference.provider "0a0b" None
               (this_ (@new_Key Reference.provider Samples.edsk_vector None None))) with
  | inr s =>
      js_slice (sg_sig s) 0 3 = "sig" /\
      String.length (sg_sig s) = 96 /\
      snd (@verify Reference.provider "0a0b" (sg_sig s)
             (this_ (@new_Key Reference.provider Samples.edsk_vector None None)))
      = inl InvalidSignature
  | inl _ => False
  end.
Proof.
  vm_compute. repeat split.
Qed.

(** * Further properties of the class *)

Section SignAndVerify.
Context {P : Provider}.

(** [verify] answers only through the primitive: when it returns a boolean
    the Key is an ed Key with public-key bytes, the signature text is
    generic or tagged [ed], and the boolean is what the verification
    primitive says of the text itself and the bytes of the message.  With a
    provider that makes libsodium's length check, the text has exactly 64
    characters. *)
Theorem verify_answers_through_the_primitive k bytes signature b :
  snd (verify bytes signature k) = inr b ->
  curve k = Some "ed" /\
  (js_slice signature 0 3 = "sig" \/ js_slice signature 0 2 = "ed") /\
  (exists pk digest,
     _publicKey k = Some pk /\ hex2buf bytes = inr digest /\
     crypto_sign_verify_detached signature digest pk = inr b) /\
  (Lawful P -> String.length signature = 64).
Proof.
  unfold verify, bind, call, this, ret, throw, try_catch. cbn.
  destruct (_publicKey k) as [pk |]; cbn; [| discriminate].
  destruct (curve k) as [c |] eqn:Hc; cbn.
  2:{ destruct (negb (js_slice signature 0 3 =? "sig")); cbn; discriminate. }
  assert (Hlen : forall digest, Lawful P ->
            crypto_sign_verify_detached signature digest pk = inr b ->
            String.length signature = 64).
  { intros digest L Hv.
    destruct (Nat.eq_dec (String.length signature) 64) as [E | E]; [exact E |].
    destruct (verify_checks_length signature digest pk E) as [w Hw]. congruence. }
  destruct (negb (js_slice signature 0 3 =? "sig")) eqn:E1; cbn.
  - destruct (negb (c =? js_slice signature 0 2)) eqn:E2; cbn; [discriminate |].
    destruct (c =? "ed") eqn:E3; [| discriminate].
    apply String.eqb_eq in E3. subst c.
    destruct (hex2buf bytes) as [w | digest]; cbn; [discriminate |].
    destruct (crypto_sign_verify_detached signature digest pk) as [w | b'] eqn:Hv;
      cbn; [discriminate |].
    intros H. injection H as <-.
    apply negb_false_iff, String.eqb_eq in E2.
    split; [reflexivity |]. split; [right; symmetry; exact E2 |].
    split; [exists pk, digest; repeat split; assumption |].
    intros L. exact (Hlen digest L Hv).
  - destruct (c =? "ed") eqn:E3; [| discriminate].
    apply String.eqb_eq in E3. subst c.
    destruct (hex2buf bytes) as [w | digest]; cbn; [discriminate |].
    destruct (crypto_sign_verify_detached signature digest pk) as [w | b'] eqn:Hv;
      cbn; [discriminate |].
    intros H. injection H as <-.
    apply negb_false_iff, String.eqb_eq in E1.
    split; [reflexivity |]. split; [left; exact E1 |].
    split; [exists pk, digest; repeat split; assumption |].
    intros L. exact (Hlen digest L Hv).
Qed.

(** On a Key of another curve than ed that has public-key bytes, [verify]
    always throws, whatever the message and the signature: the curves do
    not match, or the curve is not supported.  No primitive is called. *)
Theorem verify_fails_on_other_curves k bytes signature pk :
  _publicKey k = Some pk -> opt_str_eqb (curve k) "ed" = false ->
  verify bytes signature k = (k, inl CurveMismatch) \/
  verify bytes signature k = (k, inl (VerifyUnsupportedCurve (curve k))).
Proof.
  intros Hp Hc. unfold verify, bind, call, this, ret, throw, try_catch. cbn.
  rewrite Hp. cbn.
  destruct (negb (js_slice signature 0 3 =? "sig")); cbn.
  - destruct (negb (opt_str_eqb (curve k) (js_slice signature 0 2))); cbn.
    + left. reflexivity.
    + rewrite Hc. right. reflexivity.
  - rewrite Hc. right. reflexivity.
Qed.

(** On a Key of another curve than ed, [sign] never produces a signature:
    a message that [hex2buf] accepts is answered with the unsupported-curve
    error, and the failure of [hex2buf] comes before the curve test. *)
Theorem sign_fails_on_other_curves k bytes watermark :
  opt_str_eqb (curve k) "ed" = false ->
  sign bytes watermark k
  = (k, match hex2buf bytes with
        | inl w => inl (Foreign w)
        | inr _ => inl SignUnsupportedCurve
        end).
Proof.
  intros Hc. unfold sign, bind, call, this, ret, throw. cbn.
  destruct (hex2buf bytes); cbn; [reflexivity |].
  rewrite Hc. reflexivity.
Qed.

(** What a successful [sign] returns: the Key is an ed Key, the message is
    echoed, and the three other fields carry one and the same detached
    signature, made over the 32-byte hash of the watermark followed by the
    bytes of the message: base58check under [sig], base58check under
    [edsig], and in hexadecimal after the message. *)
Theorem sign_returns_one_signature_three_times k bytes watermark s :
  snd (sign bytes watermark k) = inr s ->
  curve k = Some "ed" /\
  sg_bytes s = bytes /\
  exists bb digest sig,
    hex2buf bytes = inr bb /\
    crypto_generichash 32
      (Some (match watermark with Some w => mergebuf w bb | None => bb end))
    = inr digest /\
    crypto_sign_detached digest (_secretKey k) = inr sig /\
    b58cencode (Some sig) (prefix "sig") = inr (sg_sig s) /\
    b58cencode (Some sig) (prefix "edsig") = inr (sg_edsig s) /\
    sg_sbytes s = bytes ++ buf2hex sig.
Proof.
  unfold sign, bind, call, this, ret, throw. cbn.
  destruct (hex2buf bytes) as [w | bb]; cbn; [discriminate |].
  destruct (curve k) as [c |]; cbn; [| discriminate].
  destruct (c =? "ed") eqn:Hed; [| discriminate].
  apply String.eqb_eq in Hed. subst c.
  destruct (crypto_generichash 32 _) as [w | digest] eqn:Hh; cbn; [discriminate |].
  destruct (crypto_sign_detached digest (_secretKey k)) as [w | sig] eqn:Hs; cbn;
    [discriminate |].
  destruct (b58cencode (Some sig) (prefix "edsig")) as [w | edsig] eqn:He; cbn;
    [discriminate |].
  destruct (b58cencode (Some sig) (prefix "sig")) as [w | gsig] eqn:Hg; cbn;
    [discriminate |].
  intros H. injection H as <-. cbn.
  split; [reflexivity | split; [reflexivity |]].
  exists bb, digest, sig. repeat split; assumption || reflexivity.
Qed.

(** The accessors, [sign] and [verify] never assign to the object. *)
Theorem reading_methods_leave_the_key_unchanged k bytes watermark signature :
  fst (publicKey k) = k /\ fst (publicKeyHash k) = k /\
  fst (sign bytes watermark k) = k /\ fst (verify bytes signature k) = k.
Proof.
  repeat split.
  - unfold_js. cbn. destruct (b58cencode _ _); reflexivity.
  - unfold_js. cbn. destruct (crypto_generichash 20 (_publicKey k)); cbn;
      [reflexivity |]. destruct (b58cencode _ _); reflexivity.
  - unfold_js. cbn. destruct (hex2buf bytes); cbn; [reflexivity |].
    destruct (opt_str_eqb (curve k) "ed"); cbn; [| reflexivity].
    repeat (split_step; cbn); reflexivity.
  - unfold_js. cbn. destruct (_publicKey k); cbn; [| reflexivity].
    repeat (split_step; cbn); reflexivity.
Qed.

(** The watermark is plain concatenation: signing a message under a
    watermark gives the signature that signing, without a watermark, any
    message whose bytes are the watermark followed by the bytes of the
    first gives. *)
Theorem watermark_is_a_prefix_of_the_message k bytes w bytes' bb s :
  hex2buf bytes = inr bb -> hex2buf bytes' = inr (mergebuf w bb) ->
  snd (sign bytes (Some w) k) = inr s ->
  exists s',
    snd (sign bytes' None k) = inr s' /\
    sg_sig s' = sg_sig s /\ sg_edsig s' = sg_edsig s.
Proof.
  intros Hb Hb'. unfold sign, bind, call, this, ret, throw. cbn.
  rewrite Hb, Hb'. cbn.
  destruct (opt_str_eqb (curve k) "ed"); [| discriminate].
  destruct (crypto_generichash 32 (Some (mergebuf w bb))) as [x | digest]; cbn;
    [discriminate |].
  destruct (crypto_sign_detached digest (_secretKey k)) as [x | sig]; cbn;
    [discriminate |].
  destruct (b58cencode (Some sig) (prefix "edsig")) as [x | edsig]; cbn;
    [discriminate |].
  destruct (b58cencode (Some sig) (prefix "sig")) as [x | gsig]; cbn;
    [discriminate |].
  intros H. injection H as <-. eexists. split; [reflexivity |]. split; reflexivity.
Qed.
End SignAndVerify.

(** An ed public key and a 64-character text: the primitive is asked and
    says no. *)
Lemma verify_answers_through_the_primitive_witness :
  snd (@verify Reference.provider "0a0b" Samples.sig_text_64 Built.from_edpk)
  = inr false /\
  String.length Samples.sig_text_64 = 64.
Proof.
  split; [vm_compute; reflexivity |].
  refine (proj2 (proj2 (proj2 (@verify_answers_through_the_primitive
            Reference.provider
            Built.from_edpk
            "0a0b" Samples.sig_text_64 false _))) reference_is_lawful).
  vm_compute. reflexivity.
Defined.

(** A Ready p2 public key. *)
Lemma verify_fails_on_other_curves_witness :
  @verify Reference.provider "0a0b" Samples.sig_text_64 Built.from_p2pk
  = (Built.from_p2pk, inl CurveMismatch) \/
  @verify Reference.provider "0a0b" Samples.sig_text_64 Built.from_p2pk
  = (Built.from_p2pk, inl (VerifyUnsupportedCurve (curve Built.from_p2pk))).
Proof.
  refine (@verify_fails_on_other_curves Reference.provider Built.from_p2pk
            "0a0b" Samples.sig_text_64 _ _ _); vm_compute; reflexivity.
Defined.

(** A Ready sp Key that holds its secret. *)
Lemma sign_fails_on_other_curves_witness :
  ready Built.from_spsk = Fulfilled /\
  @sign Reference.provider "0a0b" None Built.from_spsk
  = (Built.from_spsk,
     match @hex2buf Reference.provider "0a0b" with
     | inl w => inl (Foreign w)
     | inr _ => inl SignUnsupportedCurve
     end).
Proof.
  split; [vm_compute; reflexivity |].
  apply (@sign_fails_on_other_curves Reference.provider Built.from_spsk).
  vm_compute. reflexivity.
Defined.

(** The Key of the test vector signs [0a0b]. *)
Lemma sign_returns_one_signature_three_times_witness :
  exists s,
    snd (@sign Reference.provider "0a0b" None Built.from_edsk) = inr s /\
    sg_bytes s = "0a0b".
Proof.
  eexists. split; [vm_compute; reflexivity |].
  refine (proj1 (proj2 (@sign_returns_one_signature_three_times
            Reference.provider Built.from_edsk "0a0b" None _ _))).
  vm_compute. reflexivity.
Defined.

(** The message [0a0b] under the watermark 03, and the message [030a0b]. *)
Lemma watermark_is_a_prefix_of_the_message_witness :
  exists s s',
    snd (@sign Reference.provider "0a0b" (Some [x03]) Built.from_edsk) = inr s /\
    snd (@sign Reference.provider "030a0b" None Built.from_edsk) = inr s' /\
    sg_sig s' = sg_sig s.
Proof.
  eexists.
  assert (H : snd (@sign Reference.provider "0a0b" (Some [x03]) Built.from_edsk)
              = inr _) by (vm_compute; reflexivity).
  destruct (@watermark_is_a_prefix_of_the_message Reference.provider
              Built.from_edsk "0a0b" [x03] "030a0b" [x0a; x0b] _
              eq_refl eq_refl H) as [s' [H1 [H2 _]]].
  exists s'. split; [exact H | split; [exact H1 | exact H2]].
Defined.

Section Derivation.
Context {P : Provider}.



(** An ed secret key of 64 bytes is kept as it is and its last 32 bytes
    become the public key; the seed-expansion primitive is not called. *)
Theorem ed_secret_of_64_bytes_carries_its_public_key key passphrase email raw plain :
  truthy email = false -> js_slice key 0 2 = "ed" -> validLength key = true ->
  publicOrSecret key = "sk" ->
  b58cdecode key (prefix (decodePrefixTag key)) = inr raw ->
  opens_to key passphrase raw plain ->
  length plain = 64 ->
  new_Key key passphrase email
  = mkConstruction
      (mkKey (Some (skipn 32 plain)) (Some plain) (Some true) false
             "44'/1729'/0'/0'" 0 Fulfilled (Some "ed"))
      Fulfilled.
Proof.
  intros He Hc Hl Ht Hd Ho Hlen. unfold new_Key.
  rewrite (init_secret_stage key passphrase email raw plain He
             (validCurve_of_tag key "ed" Hc eq_refl) Hl Ht Hd Ho).
  rewrite Hc. unfold bind, assign, this, throw, ret, call, resolve. cbn.
  eval_tests. cbn. rewrite Hlen. reflexivity.
Qed.

(** An ed secret key of any other length is taken for a seed: when the
    primitive expands it, the pair it returns replaces both the public and
    the secret bytes; when the primitive refuses it, initialization is
    rejected with the primitive's exception and the Key is left with the
    unexpanded bytes as its secret and no public key. *)
Theorem ed_seed_is_expanded key passphrase email raw plain :
  truthy email = false -> js_slice key 0 2 = "ed" -> validLength key = true ->
  publicOrSecret key = "sk" ->
  b58cdecode key (prefix (decodePrefixTag key)) = inr raw ->
  opens_to key passphrase raw plain ->
  length plain <> 64 ->
  new_Key key passphrase email
  = match crypto_sign_seed_keypair plain with
    | inr (publicKey, privateKey) =>
        mkConstruction
          (mkKey (Some publicKey) (Some privateKey) (Some true) false
                 "44'/1729'/0'/0'" 0 Fulfilled (Some "ed"))
          Fulfilled
    | inl w =>
        mkConstruction
          (mkKey None (Some plain) (Some true) false
                 "44'/1729'/0'/0'" 0 Pending (Some "ed"))
          (Rejected (Foreign w))
    end.
Proof.
  intros He Hc Hl Ht Hd Ho Hlen. unfold new_Key.
  rewrite (init_secret_stage key passphrase email raw plain He
             (validCurve_of_tag key "ed" Hc eq_refl) Hl Ht Hd Ho).
  rewrite Hc. unfold bind, assign, this, throw, ret, call, resolve. cbn.
  eval_tests. cbn.
  destruct (Nat.eqb_spec (length plain) 64) as [E | _]; [contradiction |].
  destruct (crypto_sign_seed_keypair plain) as [w | [pub priv]]; reflexivity.
Qed.

(** An sp secret key is kept as it is and its public key is what
    [publicKeyCreate] derives from it; when the primitive refuses the key,
    initialization is rejected with the primitive's exception and the Key
    is left with the secret bytes and no public key. *)
Theorem sp_public_key_is_derived key passphrase email raw plain :
  truthy email = false -> js_slice key 0 2 = "sp" -> validLength key = true ->
  publicOrSecret key = "sk" ->
  b58cdecode key (prefix (decodePrefixTag key)) = inr raw ->
  opens_to key passphrase raw plain ->
  new_Key key passphrase email
  = match publicKeyCreate plain with
    | inr pk =>
        mkConstruction
          (mkKey (Some pk) (Some plain) (Some true) false
                 "44'/1729'/0'/0'" 0 Fulfilled (Some "sp"))
          Fulfilled
    | inl w =>
        mkConstruction
          (mkKey None (Some plain) (Some true) false
                 "44'/1729'/0'/0'" 0 Pending (Some "sp"))
          (Rejected (Foreign w))
    end.
Proof.
  intros He Hc Hl Ht Hd Ho. unfold new_Key.
  rewrite (init_secret_stage key passphrase email raw plain He
             (validCurve_of_tag key "sp" Hc eq_refl) Hl Ht Hd Ho).
  rewrite Hc. unfold bind, assign, this, throw, ret, call, resolve. cbn.
  eval_tests. cbn.
  destruct (publicKeyCreate plain) as [w | pk]; reflexivity.
Qed.

(** The secret bytes are stored before the public key is derived, so
    [secretKey()] answers on a Key of curve sp or p2 even when its
    initialization was rejected in the derivation: it encodes the decoded
    (and opened) bytes under the curve's sk prefix.  For a key that is not
    marked as encrypted, and an encoder that inverts the decoder on it,
    that is the credential itself. *)
Theorem secretKey_answers_after_a_rejected_derivation key passphrase email raw plain :
  truthy email = false ->
  js_slice key 0 2 = "sp" \/ js_slice key 0 2 = "p2" ->
  validLength key = true -> publicOrSecret key = "sk" ->
  b58cdecode key (prefix (decodePrefixTag key)) = inr raw ->
  opens_to key passphrase raw plain ->
  snd (secretKey (this_ (new_Key key passphrase email)))
  = seen (b58cencode (Some plain) (prefix (js_slice key 0 2 ++ "sk"))) /\
  (encrypted key = false ->
   b58cencode (Some raw) (prefix (decodePrefixTag key)) = inr key ->
   snd (secretKey (this_ (new_Key key passphrase email))) = inr key).
Proof.
  intros He Hc Hl Ht Hd Ho.
  assert (Hv : validCurve key = true)
    by (destruct Hc as [Hc | Hc];
        [exact (validCurve_of_tag key "sp" Hc eq_refl)
        | exact (validCurve_of_tag key "p2" Hc eq_refl)]).
  assert (E : snd (secretKey (this_ (new_Key key passphrase email)))
              = seen (b58cencode (Some plain) (prefix (js_slice key 0 2 ++ "sk")))).
  { unfold new_Key.
    rewrite (init_secret_stage key passphrase email raw plain He Hv Hl Ht Hd Ho).
    unfold secretKey, bind, assign, this, throw, ret, call, resolve.
    destruct Hc as [Hc | Hc]; rewrite Hc; cbn; eval_tests; cbn.
    - destruct (publicKeyCreate plain) as [w | pk]; cbn;
        change ("sp" =? "ed") with false; cbn;
        destruct (b58cencode (Some plain) (prefix ("sp" ++ "sk"))); reflexivity.
    - change ("p2" =? "ed") with false; cbn.
      destruct (b58cencode (Some plain) (prefix ("p2" ++ "sk"))); reflexivity. }
  split; [exact E |].
  intros Hen Henc. rewrite E.
  unfold opens_to in Ho. rewrite Hen in Ho. subst plain.
  unfold decodePrefixTag in Henc. rewrite Ht, Hen in Henc.
  change ("sk" =? "sk") with true in Henc. cbv iota in Henc.
  change (js_slice key 0 2 ++ "" ++ "sk") with (js_slice key 0 2 ++ "sk") in Henc.
  rewrite Henc. reflexivity.
Qed.

(** [publicKey()] of a Key constructed from a public key that is not marked
    as encrypted encodes the decoded bytes under the same prefix; with an
    encoder that inverts the decoder on the credential, it returns the
    credential. *)
Theorem publicKey_returns_the_credential key passphrase email raw :
  truthy email = false -> validCurve key = true -> validLength key = true ->
  publicOrSecret key = "pk" -> encrypted key = false ->
  b58cdecode key (prefix (js_slice key 0 2 ++ "pk")) = inr raw ->
  b58cencode (Some raw) (prefix (js_slice key 0 2 ++ "pk")) = inr key ->
  snd (publicKey (this_ (new_Key key passphrase email))) = inr key.
Proof.
  intros He Hc Hl Ht Hen Hd Henc.
  rewrite (init_public_plain key passphrase email raw He Hc Hl Ht Hen Hd).
  unfold publicKey, bind, this, call, ret, throw. cbn. rewrite Henc. reflexivity.
Qed.
End Derivation.

(** The test vector of the class documentation decodes to 64 bytes. *)
Lemma ed_secret_of_64_bytes_carries_its_public_key_witness :
  exists plain,
    length plain = 64 /\
    @new_Key Reference.provider Samples.edsk_vector None None
    = mkConstruction
        (mkKey (Some (skipn 32 plain)) (Some plain) (Some true) false
               "44'/1729'/0'/0'" 0 Fulfilled (Some "ed"))
        Fulfilled.
Proof.
  eexists. split; [| eapply (@ed_secret_of_64_bytes_carries_its_public_key
                              Reference.provider Samples.edsk_vector None None)].
  2-5: reflexivity.
  2: vm_compute; reflexivity.
  2: reflexivity.
  all: vm_compute; reflexivity.
Defined.

(** The sealed seed opens under its passphrase to the bytes 1..32, which
    the primitive expands. *)
Lemma ed_seed_is_expanded_witness :
  @new_Key Reference.provider Samples.edesk_key (Some "secret") None
  = match @crypto_sign_seed_keypair Reference.provider Samples.bytes_1_32 with
    | inr (publicKey, privateKey) =>
        mkConstruction
          (mkKey (Some publicKey) (Some privateKey) (Some true) false
                 "44'/1729'/0'/0'" 0 Fulfilled (Some "ed"))
          Fulfilled
    | inl w =>
        mkConstruction
          (mkKey None (Some Samples.bytes_1_32) (Some true) false
                 "44'/1729'/0'/0'" 0 Pending (Some "ed"))
          (Rejected (Foreign w))
    end.
Proof.
  refine (@ed_seed_is_expanded Reference.provider Samples.edesk_key
            (Some "secret") None _ Samples.bytes_1_32
            eq_refl eq_refl eq_refl eq_refl _ _ _).
  - vm_compute. reflexivity.
  - split; [reflexivity |]. eexists. split.
    + vm_compute. reflexivity.
    + vm_compute. reflexivity.
  - vm_compute. discriminate.
Defined.

(** The sp secret key made of the bytes 1..32. *)
Lemma sp_public_key_is_derived_witness :
  @new_Key Reference.provider Samples.spsk_key None None
  = match @publicKeyCreate Reference.provider Samples.bytes_1_32 with
    | inr pk =>
        mkConstruction
          (mkKey (Some pk) (Some Samples.bytes_1_32) (Some true) false
                 "44'/1729'/0'/0'" 0 Fulfilled (Some "sp"))
          Fulfilled
    | inl w =>
        mkConstruction
          (mkKey None (Some Samples.bytes_1_32) (Some true) false
                 "44'/1729'/0'/0'" 0 Pending (Some "sp"))
          (Rejected (Foreign w))
    end.
Proof.
  refine (@sp_public_key_is_derived Reference.provider Samples.spsk_key
            None None _ Samples.bytes_1_32 eq_refl eq_refl eq_refl eq_refl _ _).
  - vm_compute. reflexivity.
  - vm_compute. reflexivity.
Defined.

(** The p2 secret key whose initialization is rejected gives its own text
    back. *)
Lemma secretKey_answers_after_a_rejected_derivation_witness :
  initializing (@new_Key Reference.provider Samples.p2sk_key None None)
  = Rejected UnsupportedCurve /\
  snd (@secretKey Reference.provider
         (this_ (@new_Key Reference.provider Samples.p2sk_key None None)))
  = inr Samples.p2sk_key.
Proof.
  split; [vm_compute; reflexivity |].
  refine (proj2 (@secretKey_answers_after_a_rejected_derivation
            Reference.provider Samples.p2sk_key None None
            Samples.bytes_1_32 Samples.bytes_1_32
            eq_refl (or_intror eq_refl) eq_refl eq_refl _ _) eq_refl _);
    vm_compute; reflexivity.
Defined.

(** The ed public key made of the bytes 1..32. *)
Lemma publicKey_returns_the_credential_witness :
  snd (@publicKey Reference.provider
         (this_ (@new_Key Reference.provider Samples.edpk_key None None)))
  = inr Samples.edpk_key.
Proof.
  refine (@publicKey_returns_the_credential Reference.provider Samples.edpk_key
            None None Samples.bytes_1_32 eq_refl eq_refl eq_refl eq_refl eq_refl _ _);
    vm_compute; reflexivity.
Defined.

Section Invariants.
Context {P : Provider}.


(** A Ready Key has public-key bytes and one of the three curves. *)
Lemma ready_key_is_complete_aux key passphrase email :
  ready (this_ (new_Key key passphrase email)) = Fulfilled ->
  (exists pk, _publicKey (this_ (new_Key key passphrase email)) = Some pk) /\
  (curve (this_ (new_Key key passphrase email)) = Some "ed" \/
   curve (this_ (new_Key key passphrase email)) = Some "sp" \/
   curve (this_ (new_Key key passphrase email)) = Some "p2").
Proof.
  unfold_js. cbn.
  destruct (truthy email); cbn.
  - branches; intros Hr; try discriminate Hr; (split; [eauto | auto]).
  - destruct (includes_str ["sp"; "p2"; "ed"] (js_slice key 0 2)) eqn:Hc; cbn;
      [| intros Hr; discriminate Hr].
    apply curve_tag_cases in Hc.
    assert (Hcurve : Some (js_slice key 0 2) = Some "ed" \/
                     Some (js_slice key 0 2) = Some "sp" \/
                     Some (js_slice key 0 2) = Some "p2")
      by (destruct Hc as [-> | [-> | ->]]; auto).
    branches; intros Hr; try discriminate Hr; (split; [eauto | exact Hcurve]).
Qed.

(** A Key that construction has made Ready is complete: it has public-key
    bytes, its curve is one of ed, sp, p2, it holds secret bytes exactly
    when [isSecret] is true, and a Ready Key of curve p2 is a public key. *)
Theorem ready_key_is_complete key passphrase email :
  ready (this_ (new_Key key passphrase email)) = Fulfilled ->
  (exists pk, _publicKey (this_ (new_Key key passphrase email)) = Some pk) /\
  (curve (this_ (new_Key key passphrase email)) = Some "ed" \/
   curve (this_ (new_Key key passphrase email)) = Some "sp" \/
   curve (this_ (new_Key key passphrase email)) = Some "p2") /\
  (_isSecret (this_ (new_Key key passphrase email)) = Some true /\
   (exists sk, _secretKey (this_ (new_Key key passphrase email)) = Some sk) \/
   _isSecret (this_ (new_Key key passphrase email)) = Some false /\
   _secretKey (this_ (new_Key key passphrase email)) = None) /\
  (curve (this_ (new_Key key passphrase email)) = Some "p2" ->
   _isSecret (this_ (new_Key key passphrase email)) = Some false).
Proof.
  unfold_js. cbn.
  destruct (truthy email); cbn.
  - branches; intros Hr; try discriminate Hr;
      (split; [eauto | split; [auto | split; [left; eauto | intros H; discriminate H]]]).
  - destruct (includes_str ["sp"; "p2"; "ed"] (js_slice key 0 2)) eqn:Hc; cbn;
      [| intros Hr; discriminate Hr].
    apply curve_tag_cases in Hc.
    assert (Hcurve : Some (js_slice key 0 2) = Some "ed" \/
                     Some (js_slice key 0 2) = Some "sp" \/
                     Some (js_slice key 0 2) = Some "p2")
      by (destruct Hc as [-> | [-> | ->]]; auto).
    branches; intros Hr; try discriminate Hr;
      (split; [eauto | split; [exact Hcurve | split]]);
      try (left; split; [reflexivity | eauto]);
      try (right; split; reflexivity);
      try reflexivity;
      intros Hp2; injection Hp2 as Hp2;
      repeat match goal with
             | H : (js_slice key 0 2 =? _) = true |- _ =>
                 apply String.eqb_eq in H; rewrite H in Hp2; discriminate Hp2
             end.
Qed.

(** On a Ready Key [publicKeyHash()] always finds its prefix: it encodes
    the 20-byte hash of the public-key bytes under [tz1], [tz2] or [tz3]
    according to the curve. *)
Theorem publicKeyHash_of_a_ready_key key passphrase email :
  ready (this_ (new_Key key passphrase email)) = Fulfilled ->
  exists pk tz,
    _publicKey (this_ (new_Key key passphrase email)) = Some pk /\
    In (curve (this_ (new_Key key passphrase email)), tz)
       [(Some "ed", "tz1"); (Some "sp", "tz2"); (Some "p2", "tz3")] /\
    snd (publicKeyHash (this_ (new_Key key passphrase email)))
    = match crypto_generichash 20 (Some pk) with
      | inl w => inl (Foreign w)
      | inr h => seen (b58cencode (Some h) (prefix tz))
      end.
Proof.
  intros Hr.
  destruct (ready_key_is_complete_aux key passphrase email Hr) as [[pk Hpk] Hc].
  assert (Hh : forall tz, prefixMap (curve (this_ (new_Key key passphrase email)))
                          = prefix tz ->
    snd (publicKeyHash (this_ (new_Key key passphrase email)))
    = match crypto_generichash 20 (Some pk) with
      | inl w => inl (Foreign w)
      | inr h => seen (b58cencode (Some h) (prefix tz))
      end).
  { intros tz Htz. unfold publicKeyHash, bind, this, call, ret, throw. cbn.
    rewrite Hpk, Htz.
    destruct (crypto_generichash 20 (Some pk)); cbn; [reflexivity |].
    destruct (b58cencode (Some u) (prefix tz)); reflexivity. }
  destruct Hc as [Hc | [Hc | Hc]].
  - exists pk, "tz1". split; [exact Hpk |]. split; [rewrite Hc; cbn; auto |].
    apply Hh. rewrite Hc. reflexivity.
  - exists pk, "tz2". split; [exact Hpk |]. split; [rewrite Hc; cbn; auto |].
    apply Hh. rewrite Hc. reflexivity.
  - exists pk, "tz3". split; [exact Hpk |]. split; [rewrite Hc; cbn; auto |].
    apply Hh. rewrite Hc. reflexivity.
Qed.

(** The curve is assigned before it is checked: on the encoded-key path the
    Key ends with the first two characters of the credential as its curve
    on every path, the rejected ones included, whatever it held before. *)
Theorem curve_is_assigned_before_it_is_checked key passphrase email k0 :
  truthy email = false ->
  curve (fst (initialize key passphrase email resolve k0)) = Some (js_slice key 0 2).
Proof.
  intros He. destruct k0 as [pk0 sk0 is0 l0 lp0 lc0 r0 c0].
  unfold_js. rewrite He. cbn.
  destruct r0; branches; reflexivity.
Qed.

(** The passphrase is only read for a key marked as encrypted: for any
    other encoded key, construction with a passphrase and without one end
    alike. *)
Theorem passphrase_is_ignored_for_plain_keys key passphrase email :
  truthy email = false -> encrypted key = false ->
  new_Key key passphrase email = new_Key key None email.
Proof.
  intros He Hen. unfold new_Key, initialize. rewrite He, Hen. reflexivity.
Qed.


(** Initialization never touches the ledger settings: what a setter stored
    before [initialize] runs is what the getter returns after it, on every
    path. *)
Theorem initialize_keeps_the_ledger_settings key passphrase email k0 l lp lc :
  snd (get_isLedger
         (fst (initialize key passphrase email resolve (fst (set_isLedger l k0)))))
  = inr l /\
  snd (get_ledgerPath
         (fst (initialize key passphrase email resolve (fst (set_ledgerPath lp k0)))))
  = inr lp /\
  snd (get_ledgerCurve
         (fst (initialize key passphrase email resolve (fst (set_ledgerCurve lc k0)))))
  = inr lc.
Proof.
  destruct k0 as [pk0 sk0 is0 l0 lp0 lc0 r0 c0].
  unfold get_isLedger, set_isLedger, get_ledgerPath, set_ledgerPath,
    get_ledgerCurve, set_ledgerCurve.
  unfold_js. cbn.
  repeat split; destruct r0; branches; reflexivity.
Qed.

(** The ledger settings reach no method of the class: with [isLedger]
    switched on, and any path and curve selector, the accessors, [sign]
    and [verify] return what they return without. *)
Theorem ledger_settings_change_no_result k l lp lc bytes watermark signature :
  let k' := fst ((set_isLedger l ;; set_ledgerPath lp ;; set_ledgerCurve lc) k) in
  same_material k' k /\
  snd (publicKey k') = snd (publicKey k) /\
  snd (secretKey k') = snd (secretKey k) /\
  snd (publicKeyHash k') = snd (publicKeyHash k) /\
  snd (sign bytes watermark k') = snd (sign bytes watermark k) /\
  snd (verify bytes signature k') = snd (verify bytes signature k).
Proof.
  destruct k as [pk0 sk0 is0 l0 lp0 lc0 r0 c0].
  unfold set_isLedger, set_ledgerPath, set_ledgerCurve, same_material.
  unfold_js. cbn.
  repeat split; branches; reflexivity.
Qed.

(** Readiness is never withdrawn: running [initialize] again on a Ready
    Key leaves [ready] fulfilled, also when the second run is rejected. *)
Theorem readiness_is_never_withdrawn key passphrase email k0 :
  ready k0 = Fulfilled ->
  ready (fst (initialize key passphrase email resolve k0)) = Fulfilled.
Proof.
  destruct k0 as [pk0 sk0 is0 l0 lp0 lc0 r0 c0]. cbn. intros ->.
  unfold_js. cbn. branches; reflexivity.
Qed.
End Invariants.

(** The Key of the test vector. *)
Lemma ready_key_is_complete_witness :
  ready Built.from_edsk = Fulfilled /\
  exists pk, _publicKey Built.from_edsk = Some pk.
Proof.
  split; [vm_compute; reflexivity |].
  refine (proj1 (@ready_key_is_complete Reference.provider
                   Samples.edsk_vector None None _)).
  vm_compute. reflexivity.
Defined.

(** The hash of the Ready p2 public key is encoded under [tz3]. *)
Lemma publicKeyHash_of_a_ready_key_witness :
  exists pk tz,
    _publicKey Built.from_p2pk = Some pk /\
    In (curve Built.from_p2pk, tz)
       [(Some "ed", "tz1"); (Some "sp", "tz2"); (Some "p2", "tz3")] /\
    snd (@publicKeyHash Reference.provider Built.from_p2pk)
    = match @crypto_generichash Reference.provider 20 (Some pk) with
      | inl w => inl (Foreign w)
      | inr h => seen (@b58cencode Reference.provider (Some h)
                         (@prefix Reference.provider tz))
      end.
Proof.
  refine (@publicKeyHash_of_a_ready_key Reference.provider
            Samples.p2pk_key None None _).
  vm_compute. reflexivity.
Defined.

(** The rejected text [abc] leaves [ab] as the curve of the Key. *)
Lemma curve_is_assigned_before_it_is_checked_witness :
  initializing (@new_Key Reference.provider "abc" None None)
  = Rejected InvalidCurvePrefix /\
  curve (fst (@initialize Reference.provider "abc" None None resolve unborn))
  = Some (js_slice "abc" 0 2).
Proof.
  split; [vm_compute; reflexivity |].
  exact (@curve_is_assigned_before_it_is_checked Reference.provider
           "abc" None None unborn eq_refl).
Defined.

(** An ed public key given with a passphrase. *)
Lemma passphrase_is_ignored_for_plain_keys_witness :
  @new_Key Reference.provider Samples.edpk_key (Some "secret") None
  = @new_Key Reference.provider Samples.edpk_key None None.
Proof.
  exact (@passphrase_is_ignored_for_plain_keys Reference.provider
           Samples.edpk_key (Some "secret") None eq_refl eq_refl).
Defined.


(** The Key of the test vector is initialized again, with the text [abc]:
    the run is rejected and the Key is still Ready. *)
Lemma readiness_is_never_withdrawn_witness :
  snd (@initialize Reference.provider "abc" None None resolve Built.from_edsk)
  = inl InvalidCurvePrefix /\
  ready (fst (@initialize Reference.provider "abc" None None resolve Built.from_edsk))
  = Fulfilled.
Proof.
  split; [vm_compute; reflexivity |].
  refine (@readiness_is_never_withdrawn Reference.provider "abc" None None
            Built.from_edsk _).
  vm_compute. reflexivity.
Defined.

Section Guards.
Context {P : Provider}.

Lemma no_secret_bytes_of_a_public_key key passphrase email :
  _isSecret (this_ (new_Key key passphrase email)) <> Some true ->
  _secretKey (this_ (new_Key key passphrase email)) = None.
Proof.
  all_paths; intros H; try reflexivity; exfalso; apply H; reflexivity.
Qed.

(** [verify] is guarded: on a Key whose construction has not made it
    Ready, and on the object before its initializer has run, it throws the
    missing-public-key error whatever the message and the signature. *)
Theorem verify_refuses_an_unready_key key passphrase email bytes signature :
  ready (this_ (new_Key key passphrase email)) <> Fulfilled ->
  verify bytes signature (this_ (new_Key key passphrase email))
  = (this_ (new_Key key passphrase email), inl MissingPublicKey) /\
  verify bytes signature unborn = (unborn, inl MissingPublicKey).
Proof.
  intros Hr. split; [| reflexivity].
  unfold verify, bind, this, throw. cbn.
  rewrite (no_public_bytes_before_readiness key passphrase email Hr). reflexivity.
Qed.

(** [secretKey()] of a Key constructed from a public key, or from anything
    that did not get as far as a secret key, fails with the
    no-secret-key error. *)
Theorem secretKey_of_a_public_key_fails key passphrase email :
  _isSecret (this_ (new_Key key passphrase email)) <> Some true ->
  secretKey (this_ (new_Key key passphrase email))
  = (this_ (new_Key key passphrase email), inl NoSecretKey).
Proof.
  intros Hs. unfold secretKey, bind, this, throw. cbn.
  rewrite (no_secret_bytes_of_a_public_key key passphrase email Hs). reflexivity.
Qed.
End Guards.

(** The rejected p2 secret key. *)
Lemma verify_refuses_an_unready_key_witness :
  ready Built.from_p2sk = Pending /\
  @verify Reference.provider "0a0b" Samples.sig_text_64 Built.from_p2sk
  = (Built.from_p2sk, inl MissingPublicKey).
Proof.
  split; [vm_compute; reflexivity |].
  refine (proj1 (@verify_refuses_an_unready_key Reference.provider
                   Samples.p2sk_key None None "0a0b" Samples.sig_text_64 _)).
  vm_compute. discriminate.
Defined.

(** The Ready ed public key. *)
Lemma secretKey_of_a_public_key_fails_witness :
  ready Built.from_edpk = Fulfilled /\
  @secretKey Reference.provider Built.from_edpk = (Built.from_edpk, inl NoSecretKey).
Proof.
  split; [vm_compute; reflexivity |].
  refine (@secretKey_of_a_public_key_fails Reference.provider
            Samples.edpk_key None None _).
  vm_compute. discriminate.
Defined.

(** The reference provider is lawful, and the Key of the test vector signs
    [0a0b]. *)
Lemma signed_text_is_never_accepted_witness :
  exists s,
    snd (@sign Reference.provider "0a0b" None Built.from_edsk) = inr s /\
    68 <= String.length (sg_sig s).
Proof.
  eexists.
  assert (H : snd (@sign Reference.provider "0a0b" None Built.from_edsk) = inr _)
    by (vm_compute; reflexivity).
  split; [exact H |].
  exact (proj1 (proj2 (@signed_text_is_never_accepted Reference.provider
                         reference_is_lawful Built.from_edsk "0a0b" None _ H))).
Defined.
